(** * FlowState dashboard: footprint calculator, submission windows, streaks

    A shallow embedding of the calculation engine and of the daily / weekly
    submission handlers of [src/components/Dashboard.tsx], with the rate
    table of [constants.ts].

    Conventions of the embedding.
    - A JavaScript [number] that carries a measurement (inputs, gallons,
      score, trend, household size) is a binary64 value: Rocq's primitive
      [float], whose operations are the IEEE 754 ones the engine executes.
    - A [Date] is its time value, an integer count of milliseconds since the
      epoch ([Z]); the browser's time zone is the pair of offset functions
      by which ECMAScript converts between instants and local time, so
      the offset may change over the year (daylight saving time).  A
      calendar-date string [YYYY-MM-DD] is the number of days since
      1970-01-01 it denotes.
    - Streak counters are the integers of the [streak_data] columns ([Z]).
    - React state is an explicit record; a handler is a function from the
      state (and the outcome of the remote writes) to the new state and the
      list of effects it performed.  The effect that copies the [user]
      prop back into the state variables runs when that prop changes, that
      is after a committed submission; it is not part of a handler and is
      a function of its own ([Lifecycle.syncFromUser]).
    - Time values stay far below [2^53] in magnitude, so the arithmetic the
      code does on them in binary64 is exact: [Math.floor(a / b)] on them
      is the floor division of [Z]. *)

From Stdlib Require Import ZArith Bool List Lia String.
From Stdlib Require Import Uint63 Floats.
Import ListNotations.

Set Warnings "-inexact-float".

(* ================================================================== *)
(** * JavaScript numbers *)

Module Math.
Local Open Scope float_scope.

(** [Math.max(a, b)]: NaN if either argument is NaN; [+0] is larger
    than [-0]. *)
Definition max (a b : float) : float :=
  if is_nan a || is_nan b then nan
  else if a <? b then b
  else if b <? a then a
  else if get_sign a then b else a.

(** [Math.min(a, b)]: NaN if either argument is NaN; [-0] is smaller
    than [+0]. *)
Definition min (a b : float) : float :=
  if is_nan a || is_nan b then nan
  else if a <? b then a
  else if b <? a then b
  else if get_sign a then a else b.

(** The float of an integer (exact for [|k| <= 2^53]). *)
Definition of_Z (k : Z) : float :=
  if (k <? 0)%Z then - of_uint63 (Uint63.of_Z (- k))
  else of_uint63 (Uint63.of_Z k).

(** [floor(x + 1/2)] computed exactly, for [x = v * 2^e] with [e < 0]. *)
Definition half_up (v e : Z) : Z :=
  ((2 * v + 2 ^ (- e)) / 2 ^ (1 - e))%Z.

(** [Math.round(x)]: the integer closest to [x], ties towards [+∞];
    NaN, the infinities, the zeros and integral values are returned as they
    are, and a negative [x >= -0.5] gives [-0]. *)
Definition round (x : float) : float :=
  match Prim2SF x with
  | S754_finite s m e =>
      if (0 <=? e)%Z then x
      else
        let k := half_up (if s then Zneg m else Zpos m) e in
        if (k =? 0)%Z then (if s then neg_zero else zero) else of_Z k
  | _ => x
  end.

(** Truthiness of a number: [0], [-0] and [NaN] are falsy. *)
Definition truthy (x : float) : bool := negb (is_zero x || is_nan x).

(** [v || d] for a possibly missing ([null] / [undefined]) number [v]. *)
Definition or_default (v : option float) (d : float) : float :=
  match v with
  | Some x => if truthy x then x else d
  | None => d
  end.

End Math.

(* ================================================================== *)
(** * Rate table and inputs *)

(** [WATER_METRICS] of [constants.ts]. *)
Module WATER_METRICS.
Local Open Scope float_scope.
Definition SHOWER_GPM : float := 2.1.
Definition BATH_GPB : float := 40.
Definition FAUCET_GPM : float := 1.5.
Definition FLUSH_GPF : float := 1.6.
Definition LAUNDRY_GPL : float := 30.
Definition DISHWASHER_GPC : float := 6.
Definition GARDEN_GPM : float := 12.
Definition CLOTHING_AVG_GPI : float := 1400.
Definition DIET_MEAT_GPM : float := 450.
Definition FUEL_GPM : float := 0.5.
Definition AI_QUERY_GPQ : float := 0.13.
Definition RECYCLING_CREDIT : float := -5.
Definition COMPOST_CREDIT : float := -15.
End WATER_METRICS.

Record DailyHygieneMetrics := {
  d_showerMinutes : float;
  d_baths : float;
  d_faucetMinutes : float;
  d_flushes : float }.

Record WeeklyUsageMetrics := {
  w_laundryLoads : float;
  w_dishwasherLoads : float;
  w_gardenMinutes : float;
  w_meatMeals : float;
  w_newClothingItems : float;
  w_milesDriven : float;
  w_recyclingItems : float;
  w_compostLbs : float;
  w_aiQueries : float }.

Record WaterUsageMetrics := {
  showerMinutes : float;
  baths : float;
  faucetMinutes : float;
  flushes : float;
  laundryLoads : float;
  dishwasherLoads : float;
  gardenMinutes : float;
  meatMeals : float;
  newClothingItems : float;
  milesDriven : float;
  recyclingItems : float;
  compostLbs : float;
  aiQueries : float }.

(** [{ ...dailyInputs, ...weeklyInputs }]. *)
Definition combine (d : DailyHygieneMetrics) (w : WeeklyUsageMetrics)
  : WaterUsageMetrics :=
  {| showerMinutes := d_showerMinutes d;
     baths := d_baths d;
     faucetMinutes := d_faucetMinutes d;
     flushes := d_flushes d;
     laundryLoads := w_laundryLoads w;
     dishwasherLoads := w_dishwasherLoads w;
     gardenMinutes := w_gardenMinutes w;
     meatMeals := w_meatMeals w;
     newClothingItems := w_newClothingItems w;
     milesDriven := w_milesDriven w;
     recyclingItems := w_recyclingItems w;
     compostLbs := w_compostLbs w;
     aiQueries := w_aiQueries w |}.

(* ================================================================== *)
(** * The calculation engine ([stats]) *)

Record Breakdown := {
  Showers : float;
  Baths : float;
  Toilet : float;
  Faucets : float;
  Laundry : float;
  Dishes : float;
  Garden : float;
  Clothing : float;
  Diet : float;
  Transport : float;
  AI_Usage : float;
  Recycling : float;
  Compost : float }.

Record Stats := {
  breakdown : Breakdown;
  directTotal : float;
  virtualTotal : float;
  grandTotal : float;
  score : float;
  trend : float }.

Module Calculator.
Import WATER_METRICS.
Local Open Scope float_scope.

Definition BASELINE_CANADIAN_WEEKLY : float := 4200.

Definition DEFAULT_DAILY_INPUTS : DailyHygieneMetrics :=
  {| d_showerMinutes := 8; d_baths := 0; d_faucetMinutes := 5; d_flushes := 5 |}.

Definition DEFAULT_WEEKLY_INPUTS : WeeklyUsageMetrics :=
  {| w_laundryLoads := 4; w_dishwasherLoads := 5; w_gardenMinutes := 15;
     w_meatMeals := 7; w_newClothingItems := 1; w_milesDriven := 100;
     w_recyclingItems := 5; w_compostLbs := 2; w_aiQueries := 20 |}.

Definition DEFAULT_INPUTS : WaterUsageMetrics :=
  {| showerMinutes := 8; baths := 1; faucetMinutes := 5; flushes := 5;
     laundryLoads := 4; dishwasherLoads := 5; gardenMinutes := 15;
     meatMeals := 7; newClothingItems := 1; milesDriven := 100;
     recyclingItems := 5; compostLbs := 2; aiQueries := 20 |}.

(** [Math.max(1, user.householdSize || 1)]. *)
Definition householdDivisor (householdSize : option float) : float :=
  Math.max 1 (Math.or_default householdSize 1).

(** The impact score of a weekly total. *)
Definition scoreOf (grandTotal : float) : float :=
  let rawScore := 100 - ((grandTotal - 1500) / 40) in
  Math.max 0 (Math.min 100 (Math.round rawScore)).

(** The body of the [stats] memo. *)
Definition stats (inputs : WaterUsageMetrics) (householdSize : option float)
  : Stats :=
  let householdDivisor := householdDivisor householdSize in
  let showerWeekly := showerMinutes inputs * SHOWER_GPM * 7 in
  let bathWeekly := baths inputs * BATH_GPB in
  let faucetWeekly := faucetMinutes inputs * FAUCET_GPM * 7 in
  let toiletWeekly := flushes inputs * FLUSH_GPF * 7 in
  let laundryWeekly := (laundryLoads inputs * LAUNDRY_GPL) / householdDivisor in
  let dishwasherWeekly :=
    (dishwasherLoads inputs * DISHWASHER_GPC) / householdDivisor in
  let gardenWeekly := (gardenMinutes inputs * GARDEN_GPM) / householdDivisor in
  let clothingWeekly := newClothingItems inputs * CLOTHING_AVG_GPI in
  let dietWeekly := meatMeals inputs * DIET_MEAT_GPM in
  let transportWeekly := milesDriven inputs * FUEL_GPM in
  let aiWeekly := aiQueries inputs * AI_QUERY_GPQ in
  let recyclingWeekly := recyclingItems inputs * RECYCLING_CREDIT in
  let compostWeekly := compostLbs inputs * COMPOST_CREDIT in
  let directTotal :=
    showerWeekly + bathWeekly + faucetWeekly + toiletWeekly
    + laundryWeekly + dishwasherWeekly + gardenWeekly in
  let virtualTotal :=
    clothingWeekly + dietWeekly + transportWeekly + aiWeekly
    + recyclingWeekly + compostWeekly in
  let grandTotal := directTotal + virtualTotal in
  let trend :=
    ((grandTotal - BASELINE_CANADIAN_WEEKLY) / BASELINE_CANADIAN_WEEKLY) * 100 in
  let rawScore := 100 - ((grandTotal - 1500) / 40) in
  let score := Math.max 0 (Math.min 100 (Math.round rawScore)) in
  {| breakdown :=
       {| Showers := showerWeekly;
          Baths := bathWeekly;
          Toilet := toiletWeekly;
          Faucets := faucetWeekly;
          Laundry := laundryWeekly;
          Dishes := dishwasherWeekly;
          Garden := gardenWeekly;
          Clothing := clothingWeekly;
          Diet := dietWeekly;
          Transport := transportWeekly;
          AI_Usage := aiWeekly;
          Recycling := recyclingWeekly;
          Compost := compostWeekly |};
     directTotal := directTotal;
     virtualTotal := virtualTotal;
     grandTotal := grandTotal;
     score := score;
     trend := trend |}.

End Calculator.

(* ================================================================== *)
(** * Classes of binary64 values *)

Module SF.

(** Zero or a finite non-zero value: neither NaN nor an infinity. *)
Definition finite (x : spec_float) : bool :=
  match x with
  | S754_zero _ | S754_finite _ _ _ => true
  | S754_infinity _ | S754_nan => false
  end.

Definition not_nan (x : spec_float) : bool :=
  match x with
  | S754_nan => false
  | _ => true
  end.

Definition nonzero_finite (x : spec_float) : bool :=
  match x with
  | S754_finite _ _ _ => true
  | _ => false
  end.

End SF.

(** [clamp(x, lo, hi)] as the specification words it: [lo] below [lo],
    [hi] above [hi], [x] in between. *)
Definition clamp (x lo hi : float) : float :=
  if (x <? lo)%float then lo else if (hi <? x)%float then hi else x.

(** [Math.max(0, Math.min(100, r))], the clamping of the score. *)
Definition clampScore (r : float) : float := Math.max 0 (Math.min 100 r).

(** The whole numbers [lo, lo + 1, ..., lo + len - 1]. *)
Definition Zrange (lo : Z) (len : nat) : list Z :=
  map (fun i => (lo + Z.of_nat i)%Z) (seq 0 len).

(** All thirteen inputs are finite numbers. *)
Definition finiteInputs (i : WaterUsageMetrics) : bool :=
  forallb is_finite
    [showerMinutes i; baths i; faucetMinutes i; flushes i; laundryLoads i;
     dishwasherLoads i; gardenMinutes i; meatMeals i; newClothingItems i;
     milesDriven i; recyclingItems i; compostLbs i; aiQueries i].

(* ================================================================== *)
(** * Dates *)

Module JSDate.
Local Open Scope Z_scope.

(** [1000 * 60 * 60 * 24]. *)
Definition msPerDay : Z := 1000 * 60 * 60 * 24.

(** The time zone of the browser, as ECMAScript's [LocalTZA]: offsets of
    local time from UTC in milliseconds (local minus UTC; JavaScript's
    [getTimezoneOffset()] is the opposite, in minutes).  [utcOffset t] is
    the offset in force at the instant [t]; [localOffset l] is the offset
    by which the local time value [l] is read back as an instant.  Where
    daylight saving time is observed both depend on their argument. *)
Record Zone := { utcOffset : Z -> Z; localOffset : Z -> Z }.

(** A zone that keeps one offset all year. *)
Definition fixedZone (tz : Z) : Zone :=
  {| utcOffset := fun _ => tz; localOffset := fun _ => tz |}.

(** The clock of one handler run: the time value [new Date()] returns and
    the zone of the browser. *)
Record Clock := { now : Z; zone : Zone }.

(** Offsets of real zones lie between UTC-12:00 and UTC+14:00. *)
Definition offset_ok (tz : Z) : Prop := - msPerDay < tz < msPerDay.

(** [LocalTime(t)]: the local time value of the instant [t]. *)
Definition LocalTime (c : Clock) (t : Z) : Z := t + utcOffset (zone c) t.

(** [UTC(l)]: the instant the local time value [l] denotes. *)
Definition UTC (c : Clock) (l : Z) : Z := l - localOffset (zone c) l.

(** [new Date(s)] for a date-only string [s = YYYY-MM-DD]: midnight UTC of
    that day. *)
Definition parseDateOnly (s : Z) : Z := s * msPerDay.

(** [d.toISOString().split('T')[0]]: the UTC calendar date. *)
Definition isoDate (t : Z) : Z := t / msPerDay.

(** [d.toDateString()]: the local calendar date. *)
Definition toDateString (c : Clock) (t : Z) : Z := LocalTime c t / msPerDay.

(** [d.setHours(0, 0, 0, 0)]: the instant of local midnight of the local
    day of [t] ([UTC(MakeDate(Day(LocalTime(t)), 0))]). *)
Definition setHours0 (c : Clock) (t : Z) : Z :=
  UTC c (toDateString c t * msPerDay).

(** The zone is at the offset [tz] at the instant [t] and at the local
    midnight before it. *)
Definition steadyAt (c : Clock) (tz t : Z) : bool :=
  (utcOffset (zone c) t =? tz)
  && (localOffset (zone c) (toDateString c t * msPerDay) =? tz).

(** The zone is at the offset [tz] now, at midnight UTC of the stored date
    [d] and at the local midnights before the two: as it is when no change
    of offset lies between the stored date and now. *)
Definition steady (c : Clock) (d tz : Z) : bool :=
  steadyAt c tz (now c) && steadyAt c tz (parseDateOnly d).

End JSDate.

(* ================================================================== *)
(** * The user object and the component state *)

Record StreakData := {
  currentStreak : Z;
  longestStreak : Z;
  lastLogDate : option Z;   (* [None]: the empty string or [null] *)
  totalPoints : Z }.

(** [lastUpdated] is the time value of the stored timestamp; [None] is an
    empty or missing one. *)
Record DailyHygieneData := {
  dh_inputs : DailyHygieneMetrics;
  dh_isSubmitted : bool;
  dh_lastUpdated : option Z }.

Record DashboardData := {
  dd_inputs : WaterUsageMetrics;
  dd_isSubmitted : bool;
  dd_lastUpdated : option Z }.

Record User := {
  id : string;
  householdSize : option float;
  monthlyUsage : float;
  dashboardData : option DashboardData;
  dailyHygieneData : option DailyHygieneData;
  u_streakData : option StreakData }.

(** The state of the [Dashboard] component: its [user] prop and its state
    variables. *)
Record Dashboard := {
  user : User;
  dailyInputs : DailyHygieneMetrics;
  isDailySubmitted : bool;
  weeklyInputs : WeeklyUsageMetrics;
  isWeeklySubmitted : bool;
  streakData : StreakData;
  saving : bool }.

Inductive DailyField :=
  F_showerMinutes | F_baths | F_faucetMinutes | F_flushes.

Inductive WeeklyField :=
  F_laundryLoads | F_dishwasherLoads | F_gardenMinutes | F_meatMeals
| F_newClothingItems | F_milesDriven | F_recyclingItems | F_compostLbs
| F_aiQueries.

(** The outcome of one remote write ([upsert] / [update]): it resolves
    without an error, or it resolves with one or rejects. *)
Inductive WriteResult := WriteOk | WriteError.

Inductive Effect :=
| UpsertDailyHygiene (inputs : DailyHygieneMetrics) (is_submitted : bool)
    (last_updated : Z)
| UpsertStreak (payload : StreakData)
| UpsertDashboard (inputs : WaterUsageMetrics) (is_submitted : bool)
    (last_updated : Z)
| UpdateProfile (monthly_usage : float)
| Alert (message : string)
| ConsoleError (message : string)
| OnUpdateUser (updatedUser : User)
| ScrollToTop.

Module Tracker.
Import JSDate.
Local Open Scope Z_scope.

(** [user.dailyHygieneData?.lastUpdated]. *)
Definition dailyLastUpdated (u : User) : option Z :=
  match dailyHygieneData u with
  | Some d => dh_lastUpdated d
  | None => None
  end.

(** [user.dashboardData?.lastUpdated]. *)
Definition weeklyLastUpdated (u : User) : option Z :=
  match dashboardData u with
  | Some d => dd_lastUpdated d
  | None => None
  end.

(** [isNewDay]. *)
Definition isNewDay (c : Clock) (u : User) : bool :=
  match dailyLastUpdated u with
  | None => true
  | Some lastUpdated =>
      let lastDate := toDateString c lastUpdated in
      let today := toDateString c (now c) in
      negb (lastDate =? today)
  end.

(** [isNewWeek]. *)
Definition isNewWeek (c : Clock) (u : User) : bool :=
  match weeklyLastUpdated u with
  | None => false
  | Some lastUpdated =>
      let last := lastUpdated in
      let oneWeekMs := 7 * 24 * 60 * 60 * 1000 in
      (oneWeekMs <? now c - last)
  end.

(** The initial value of the [streakData] state variable. *)
Definition initialStreak : StreakData :=
  {| currentStreak := 0; longestStreak := 0; lastLogDate := None;
     totalPoints := 0 |}.

(** The [useState] initialisers. *)
Definition initialState (c : Clock) (u : User) : Dashboard :=
  {| user := u;
     dailyInputs :=
       match dailyHygieneData u with
       | Some d => dh_inputs d
       | None => Calculator.DEFAULT_DAILY_INPUTS
       end;
     isDailySubmitted :=
       if isNewDay c u then false
       else match dailyHygieneData u with
            | Some d => dh_isSubmitted d
            | None => false
            end;
     weeklyInputs :=
       let dflt := Calculator.DEFAULT_WEEKLY_INPUTS in
       let get (f : WaterUsageMetrics -> float) (g : WeeklyUsageMetrics -> float) :=
         Math.or_default (option_map (fun d => f (dd_inputs d)) (dashboardData u))
           (g dflt) in
       {| w_laundryLoads := get laundryLoads w_laundryLoads;
          w_dishwasherLoads := get dishwasherLoads w_dishwasherLoads;
          w_gardenMinutes := get gardenMinutes w_gardenMinutes;
          w_meatMeals := get meatMeals w_meatMeals;
          w_newClothingItems := get newClothingItems w_newClothingItems;
          w_milesDriven := get milesDriven w_milesDriven;
          w_recyclingItems := get recyclingItems w_recyclingItems;
          w_compostLbs := get compostLbs w_compostLbs;
          w_aiQueries := get aiQueries w_aiQueries |};
     isWeeklySubmitted :=
       if isNewWeek c u then false
       else match dashboardData u with
            | Some d => dd_isSubmitted d
            | None => false
            end;
     streakData :=
       match u_streakData u with
       | Some sd => sd
       | None => initialStreak
       end;
     saving := false |}.

(** [diffDays] of [calculateStreak], for a stored log date. *)
Definition diffDays (c : Clock) (lastLogDate : Z) : Z :=
  let today := setHours0 c (now c) in
  let lastLog := setHours0 c (parseDateOnly lastLogDate) in
  let diffTime := today - lastLog in
  diffTime / msPerDay.

(** [calculateStreak(lastLogDate, currentStreakFromDB)]: the pair of
    [currentStreak] and [isConsecutive]. *)
Definition calculateStreak (c : Clock) (lastLogDate : option Z)
    (currentStreakFromDB : Z) : Z * bool :=
  match lastLogDate with
  | None => (1, false)
  | Some d =>
      let diffDays := diffDays c d in
      if diffDays =? 0 then (currentStreakFromDB, true)
      else if diffDays =? 1 then (currentStreakFromDB + 1, true)
      else (1, false)
  end.

(** [streakData.lastLogDate === todayStr]. *)
Definition sameDate (lastLogDate : option Z) (todayStr : Z) : bool :=
  match lastLogDate with
  | Some d => d =? todayStr
  | None => false
  end.

(** The record [handleDailySubmit] computes from the stored streak: the
    [streakPayload] it writes and the [newStreakData] it commits. *)
Definition newStreakData (c : Clock) (sd : StreakData) : StreakData :=
  let todayStr := isoDate (now c) in
  let '(currentStreak', _) :=
    calculateStreak c (lastLogDate sd) (currentStreak sd) in
  let longestStreak' := Z.max currentStreak' (longestStreak sd) in
  let totalPoints' := totalPoints sd + 1 in
  {| currentStreak := currentStreak';
     longestStreak := longestStreak';
     lastLogDate := Some todayStr;
     totalPoints := totalPoints' |}.

Definition setSaving (b : bool) (s : Dashboard) : Dashboard :=
  {| user := user s; dailyInputs := dailyInputs s;
     isDailySubmitted := isDailySubmitted s; weeklyInputs := weeklyInputs s;
     isWeeklySubmitted := isWeeklySubmitted s; streakData := streakData s;
     saving := b |}.

Definition setDaily (prev : DailyHygieneMetrics) (field : DailyField)
    (value : float) : DailyHygieneMetrics :=
  match field with
  | F_showerMinutes =>
      {| d_showerMinutes := value; d_baths := d_baths prev;
         d_faucetMinutes := d_faucetMinutes prev; d_flushes := d_flushes prev |}
  | F_baths =>
      {| d_showerMinutes := d_showerMinutes prev; d_baths := value;
         d_faucetMinutes := d_faucetMinutes prev; d_flushes := d_flushes prev |}
  | F_faucetMinutes =>
      {| d_showerMinutes := d_showerMinutes prev; d_baths := d_baths prev;
         d_faucetMinutes := value; d_flushes := d_flushes prev |}
  | F_flushes =>
      {| d_showerMinutes := d_showerMinutes prev; d_baths := d_baths prev;
         d_faucetMinutes := d_faucetMinutes prev; d_flushes := value |}
  end.

Definition setWeekly (prev : WeeklyUsageMetrics) (field : WeeklyField)
    (value : float) : WeeklyUsageMetrics :=
  let pick (f : WeeklyField) (old : WeeklyUsageMetrics -> float) :=
    match field, f with
    | F_laundryLoads, F_laundryLoads
    | F_dishwasherLoads, F_dishwasherLoads
    | F_gardenMinutes, F_gardenMinutes
    | F_meatMeals, F_meatMeals
    | F_newClothingItems, F_newClothingItems
    | F_milesDriven, F_milesDriven
    | F_recyclingItems, F_recyclingItems
    | F_compostLbs, F_compostLbs
    | F_aiQueries, F_aiQueries => value
    | _, _ => old prev
    end in
  {| w_laundryLoads := pick F_laundryLoads w_laundryLoads;
     w_dishwasherLoads := pick F_dishwasherLoads w_dishwasherLoads;
     w_gardenMinutes := pick F_gardenMinutes w_gardenMinutes;
     w_meatMeals := pick F_meatMeals w_meatMeals;
     w_newClothingItems := pick F_newClothingItems w_newClothingItems;
     w_milesDriven := pick F_milesDriven w_milesDriven;
     w_recyclingItems := pick F_recyclingItems w_recyclingItems;
     w_compostLbs := pick F_compostLbs w_compostLbs;
     w_aiQueries := pick F_aiQueries w_aiQueries |}.

(** [handleDailyInputChange(field, value)]. *)
Definition handleDailyInputChange (field : DailyField) (value : float)
    (s : Dashboard) : Dashboard :=
  {| user := user s;
     dailyInputs := setDaily (dailyInputs s) field value;
     isDailySubmitted := if isDailySubmitted s then false else isDailySubmitted s;
     weeklyInputs := weeklyInputs s;
     isWeeklySubmitted := isWeeklySubmitted s;
     streakData := streakData s;
     saving := saving s |}.

(** [handleWeeklyInputChange(field, value)]. *)
Definition handleWeeklyInputChange (field : WeeklyField) (value : float)
    (s : Dashboard) : Dashboard :=
  {| user := user s;
     dailyInputs := dailyInputs s;
     isDailySubmitted := isDailySubmitted s;
     weeklyInputs := setWeekly (weeklyInputs s) field value;
     isWeeklySubmitted :=
       if isWeeklySubmitted s then false else isWeeklySubmitted s;
     streakData := streakData s;
     saving := saving s |}.

Definition alreadyLoggedMsg : string :=
  "You've already logged today! Your streak is maintained.".
Definition dailyFailedMsg : string :=
  "Failed to save daily data. Please try again.".
Definition weeklyFailedMsg : string :=
  "Failed to save weekly data. Please try again.".

(** [handleDailySubmit()], given the outcomes of its two writes (the second
    is attempted only when the first succeeds).  The three calls of
    [new Date()] in one run read the same instant [now c]. *)
Definition handleDailySubmit (c : Clock) (dailyWrite streakWrite : WriteResult)
    (s : Dashboard) : Dashboard * list Effect :=
  let now := now c in
  let todayStr := isoDate now in
  if sameDate (lastLogDate (streakData s)) todayStr then
    (setSaving false s, [Alert alreadyLoggedMsg])
  else
    let streakPayload := newStreakData c (streakData s) in
    let write1 := UpsertDailyHygiene (dailyInputs s) true now in
    let write2 := UpsertStreak streakPayload in
    let failed := [ConsoleError "Error saving daily data:"; Alert dailyFailedMsg] in
    match dailyWrite with
    | WriteError => (setSaving false s, write1 :: failed)
    | WriteOk =>
        match streakWrite with
        | WriteError => (setSaving false s, write1 :: write2 :: failed)
        | WriteOk =>
            let updatedUser :=
              {| id := id (user s);
                 householdSize := householdSize (user s);
                 monthlyUsage := monthlyUsage (user s);
                 dashboardData := dashboardData (user s);
                 dailyHygieneData :=
                   Some {| dh_inputs := dailyInputs s; dh_isSubmitted := true;
                           dh_lastUpdated := Some now |};
                 u_streakData := Some streakPayload |} in
            ({| user := updatedUser;
                dailyInputs := dailyInputs s;
                isDailySubmitted := true;
                weeklyInputs := weeklyInputs s;
                isWeeklySubmitted := isWeeklySubmitted s;
                streakData := streakPayload;
                saving := false |},
             [write1; write2; OnUpdateUser updatedUser; ScrollToTop])
        end
    end.

(** [handleWeeklySubmit()], given the outcomes of its two writes. *)
Definition handleWeeklySubmit (c : Clock) (dashboardWrite profileWrite : WriteResult)
    (s : Dashboard) : Dashboard * list Effect :=
  let now := now c in
  let combinedInputs := combine (dailyInputs s) (weeklyInputs s) in
  let newMonthlyUsage :=
    Math.round
      (grandTotal (Calculator.stats combinedInputs (householdSize (user s))) * 4)%float in
  let write1 := UpsertDashboard combinedInputs true now in
  let write2 := UpdateProfile newMonthlyUsage in
  let failed := [ConsoleError "Error saving weekly data:"; Alert weeklyFailedMsg] in
  match dashboardWrite with
  | WriteError => (setSaving false s, write1 :: failed)
  | WriteOk =>
      match profileWrite with
      | WriteError => (setSaving false s, write1 :: write2 :: failed)
      | WriteOk =>
          let updatedUser :=
            {| id := id (user s);
               householdSize := householdSize (user s);
               monthlyUsage := newMonthlyUsage;
               dashboardData :=
                 Some {| dd_inputs := combinedInputs; dd_isSubmitted := true;
                         dd_lastUpdated := Some now |};
               dailyHygieneData := dailyHygieneData (user s);
               u_streakData := u_streakData (user s) |} in
          ({| user := updatedUser;
              dailyInputs := dailyInputs s;
              isDailySubmitted := isDailySubmitted s;
              weeklyInputs := weeklyInputs s;
              isWeeklySubmitted := true;
              streakData := streakData s;
              saving := false |},
           [write1; write2; OnUpdateUser updatedUser; ScrollToTop])
      end
  end.

(** The well-formedness the tracker maintains: once a log date is stored,
    the current streak is at least one. *)
Definition streak_inv (sd : StreakData) : Prop :=
  match lastLogDate sd with
  | Some _ => 1 <= currentStreak sd
  | None => True
  end.

(** Streak records the tracker can hold: the initial one, and whatever a
    run of [handleDailySubmit] leaves (in this session or, through the
    [streak_data] row, in an earlier one). *)
Inductive reachable : StreakData -> Prop :=
| reachable_initial : reachable initialStreak
| reachable_submit (c : Clock) (w1 w2 : WriteResult) (s : Dashboard) :
    reachable (streakData s) ->
    reachable (streakData (fst (handleDailySubmit c w1 w2 s))).

End Tracker.

(* ================================================================== *)
(** * Scenarios *)

Module Scenario.
Import JSDate Tracker.
Local Open Scope Z_scope.

(** The instant [ms] milliseconds after local midnight of local day [day],
    in the zone at offset [tz]. *)
Definition localTime (tz day ms : Z) : Z := day * msPerDay + ms - tz.

Definition newUser : User :=
  {| id := "u"; householdSize := Some 1%float; monthlyUsage := 0%float;
     dashboardData := None; dailyHygieneData := None; u_streakData := None |}.

Definition withDaily (u : User) (lastUpdated : Z) : User :=
  {| id := id u; householdSize := householdSize u;
     monthlyUsage := monthlyUsage u; dashboardData := dashboardData u;
     dailyHygieneData :=
       Some {| dh_inputs := Calculator.DEFAULT_DAILY_INPUTS;
               dh_isSubmitted := true; dh_lastUpdated := Some lastUpdated |};
     u_streakData := u_streakData u |}.

(** Eastern Standard Time, UTC-05:00. *)
Definition est : Z := - (5 * 60 * 60 * 1000).

(** Eastern Daylight Time, UTC-04:00. *)
Definition edt : Z := - (4 * 60 * 60 * 1000).

(** 2024-01-10 and 2024-03-10 as day counts. *)
Definition jan10 : Z := 19732.
Definition mar10 : Z := 19792.

(** 2024-03-10T07:00:00Z: New York clocks go from 02:00 EST to 03:00 EDT. *)
Definition springForward : Z := mar10 * msPerDay + 7 * 60 * 60 * 1000.

(** New York in the winter and spring of 2024.  A local time in the hour
    that is skipped is read with the offset before the change. *)
Definition newYork : Zone :=
  {| utcOffset := fun t => if t <? springForward then est else edt;
     localOffset := fun l => if l <? springForward + edt then est else edt |}.

(** The instant [ms] milliseconds after midnight UTC of day [day], on a
    New York clock. *)
Definition newYorkAt (day ms : Z) : Clock :=
  {| now := day * msPerDay + ms; zone := newYork |}.

(** 10:00 in the morning, Eastern Standard Time, on the winter day [day]
    in New York (15:00 UTC of the same calendar day). *)
Definition newYork10am (day : Z) : Clock :=
  {| now := localTime est day (10 * 60 * 60 * 1000); zone := newYork |}.

(** Saturday 2024-03-09 at 21:00 and Monday 2024-03-11 at 22:00 in New York
    (02:00 UTC of the days after); the clocks went forward on the Sunday
    in between. *)
Definition saturdayEvening : Clock := newYorkAt mar10 (2 * 60 * 60 * 1000).
Definition mondayEvening : Clock := newYorkAt (mar10 + 2) (2 * 60 * 60 * 1000).

(** Wednesday 2024-01-10 in New York at 20:00 (01:00 UTC of the day after),
    and at 18:00 of the same evening (23:00 UTC), where a clock that was
    set back two hours stands. *)
Definition eveningLog : Clock := newYorkAt (jan10 + 1) (1 * 60 * 60 * 1000).
Definition clockSetBack : Clock := newYorkAt jan10 (23 * 60 * 60 * 1000).

(** Japan Standard Time, UTC+09:00, and Thursday 2024-01-11 at 05:00 in
    Tokyo (20:00 UTC of the day before). *)
Definition jst : Z := 9 * 60 * 60 * 1000.
Definition tokyoBeforeDawn : Clock :=
  {| now := jan10 * msPerDay + 20 * 60 * 60 * 1000; zone := fixedZone jst |}.

(** 10:00 in the morning on day [day] in the UTC zone. *)
Definition utc10am (day : Z) : Clock :=
  {| now := localTime 0 day (10 * 60 * 60 * 1000); zone := fixedZone 0 |}.

(** A daily submission whose two writes succeed. *)
Definition logOn (c : Clock) (s : Dashboard) : Dashboard :=
  fst (handleDailySubmit c WriteOk WriteOk s).

(** Inputs that are all finite numbers, two of them huge. *)
Definition overflowInputs : WaterUsageMetrics :=
  {| showerMinutes := 8; baths := 1; faucetMinutes := 5; flushes := 5;
     laundryLoads := 4; dishwasherLoads := 5; gardenMinutes := 15;
     meatMeals := 7; newClothingItems := 1e308; milesDriven := 100;
     recyclingItems := 5; compostLbs := 1e308; aiQueries := 20 |}%float.

(** The default inputs with a number of laundry loads that is finite and
    huge. *)
Definition hugeLaundry : WaterUsageMetrics :=
  {| showerMinutes := 8; baths := 1; faucetMinutes := 5; flushes := 5;
     laundryLoads := 1e308; dishwasherLoads := 5; gardenMinutes := 15;
     meatMeals := 7; newClothingItems := 1; milesDriven := 100;
     recyclingItems := 5; compostLbs := 2; aiQueries := 20 |}%float.

(** Inputs whose weekly total is exactly 1500 gallons, and exactly 5500. *)
Definition idealInputs : WaterUsageMetrics :=
  {| showerMinutes := 0; baths := 0; faucetMinutes := 0; flushes := 0;
     laundryLoads := 0; dishwasherLoads := 0; gardenMinutes := 0;
     meatMeals := 0; newClothingItems := 1; milesDriven := 200;
     recyclingItems := 0; compostLbs := 0; aiQueries := 0 |}%float.

Definition heavyInputs : WaterUsageMetrics :=
  {| showerMinutes := 0; baths := 0; faucetMinutes := 0; flushes := 0;
     laundryLoads := 0; dishwasherLoads := 0; gardenMinutes := 0;
     meatMeals := 2; newClothingItems := 3; milesDriven := 800;
     recyclingItems := 0; compostLbs := 0; aiQueries := 0 |}%float.

End Scenario.


(* ================================================================== *)
(** * Mounting, and the effect that follows the [user] prop *)

Module Lifecycle.
Import JSDate Tracker.
Local Open Scope Z_scope.

(** The [inputs] memo: [{ ...dailyInputs, ...weeklyInputs }]. *)
Definition inputs (s : Dashboard) : WaterUsageMetrics :=
  combine (dailyInputs s) (weeklyInputs s).

(** The [stats] memo of a state. *)
Definition statsOf (s : Dashboard) : Stats :=
  Calculator.stats (inputs s) (householdSize (user s)).

(** The nine weekly fields the effect copies out of a stored inputs
    object. *)
Definition weeklyOf (i : WaterUsageMetrics) : WeeklyUsageMetrics :=
  {| w_laundryLoads := laundryLoads i;
     w_dishwasherLoads := dishwasherLoads i;
     w_gardenMinutes := gardenMinutes i;
     w_meatMeals := meatMeals i;
     w_newClothingItems := newClothingItems i;
     w_milesDriven := milesDriven i;
     w_recyclingItems := recyclingItems i;
     w_compostLbs := compostLbs i;
     w_aiQueries := aiQueries i |}.

(** The [useEffect] keyed on the [user] prop ("Sync state if user prop
    changes").  A missing [lastUpdated] makes [new Date(...)] an invalid
    date, whose [toDateString()] is not today's. *)
Definition syncFromUser (c : Clock) (s : Dashboard) : Dashboard :=
  let u := user s in
  let daily :=
    match dailyHygieneData u with
    | Some d =>
        let sameDay :=
          match dh_lastUpdated d with
          | Some t =>
              let lastDate := toDateString c t in
              let today := toDateString c (now c) in
              lastDate =? today
          | None => false
          end in
        (dh_inputs d, sameDay && dh_isSubmitted d)
    | None => (dailyInputs s, isDailySubmitted s)
    end in
  let weekly :=
    match dashboardData u with
    | Some d =>
        (weeklyOf (dd_inputs d),
         match dd_lastUpdated d with
         | Some last =>
             let oneWeekMs := 7 * 24 * 60 * 60 * 1000 in
             (now c - last <=? oneWeekMs) && dd_isSubmitted d
         | None => dd_isSubmitted d
         end)
    | None => (weeklyInputs s, isWeeklySubmitted s)
    end in
  {| user := u;
     dailyInputs := fst daily;
     isDailySubmitted := snd daily;
     weeklyInputs := fst weekly;
     isWeeklySubmitted := snd weekly;
     streakData :=
       match u_streakData u with
       | Some sd => sd
       | None => streakData s
       end;
     saving := saving s |}.

(** Mounting the component for a user: the [useState] initialisers, then
    the effect, which also runs after the first render. *)
Definition mount (c : Clock) (u : User) : Dashboard :=
  syncFromUser c (initialState c u).

(** Daily logs at the instants [cs], in order, every write succeeding. *)
Definition logRun (cs : list Clock) (s : Dashboard) : Dashboard :=
  fold_left (fun s c => fst (handleDailySubmit c WriteOk WriteOk s)) cs s.

(** Clocks in the UTC zone on the consecutive days [day], [day + 1], ...,
    at the given times of day. *)
Fixpoint consecutiveUtc (day : Z) (times : list Z) : list Clock :=
  match times with
  | [] => []
  | t :: ts =>
      {| now := day * msPerDay + t; zone := fixedZone 0 |}
        :: consecutiveUtc (day + 1) ts
  end.

(** The remote writes among the effects of a handler run. *)
Definition isWrite (e : Effect) : bool :=
  match e with
  | UpsertDailyHygiene _ _ _ | UpsertStreak _ | UpsertDashboard _ _ _
  | UpdateProfile _ => true
  | _ => false
  end.

End Lifecycle.

(* ================================================================== *)
(** * The breakdown list *)

Module Display.
Local Open Scope string_scope.
Local Open Scope float_scope.

(** [activeCategory]. *)
Inductive ActiveCategory := All | Direct | Virtual.

(** [Object.entries(stats.breakdown)], in insertion order. *)
Definition entries (b : Breakdown) : list (string * float) :=
  [("Showers", Showers b); ("Baths", Baths b); ("Toilet", Toilet b);
   ("Faucets", Faucets b); ("Laundry", Laundry b); ("Dishes", Dishes b);
   ("Garden", Garden b); ("Clothing", Clothing b); ("Diet", Diet b);
   ("Transport", Transport b); ("AI Usage", AI_Usage b);
   ("Recycling", Recycling b); ("Compost", Compost b)].

(** [list.includes(x)] on strings. *)
Definition includes (l : list string) (x : string) : bool :=
  existsb (String.eqb x) l.

Definition directCategories : list string :=
  ["Showers"; "Baths"; "Toilet"; "Faucets"; "Laundry"; "Dishes"; "Garden"].

Definition isDirect (category : string) : bool :=
  includes directCategories category.

(** [numericVal < 0]. *)
Definition isCredit (numericVal : float) : bool := numericVal <? 0.

(** [Math.min(100, Math.max(percent, 1))] for a row. *)
Definition displayPercent (numericVal grandTotal : float) : float :=
  let percent := (abs numericVal / grandTotal) * 100 in
  Math.min 100 (Math.max percent 1).

(** What a rendered row shows. *)
Record Row := {
  r_category : string;
  r_isCredit : bool;
  r_isDirect : bool;
  r_gallons : float;          (* [Math.round(numericVal)] *)
  r_displayPercent : float }.

(** The callback of [Object.entries(stats.breakdown).map]: [None] is the
    [null] of a row that is not rendered. *)
Definition renderRow (activeCategory : ActiveCategory) (grandTotal : float)
    (entry : string * float) : option Row :=
  let '(category, numericVal) := entry in
  let isCredit := isCredit numericVal in
  let isDirect := isDirect category in
  match activeCategory, isDirect with
  | Direct, false => None
  | Virtual, true => None
  | _, _ =>
      if abs numericVal <? 1 then None
      else
        Some {| r_category := category;
                r_isCredit := isCredit;
                r_isDirect := isDirect;
                r_gallons := Math.round numericVal;
                r_displayPercent := displayPercent numericVal grandTotal |}
  end.

(** No input is negative ([NaN] is not excluded). *)
Definition noNegativeInput (i : WaterUsageMetrics) : bool :=
  forallb (fun x => negb (x <? 0))
    [showerMinutes i; baths i; faucetMinutes i; flushes i; laundryLoads i;
     dishwasherLoads i; gardenMinutes i; meatMeals i; newClothingItems i;
     milesDriven i; recyclingItems i; compostLbs i; aiQueries i].

End Display.

(* ================================================================== *)
(** * The assistant's usage figures *)

Module Assistant.
Import WATER_METRICS.
Local Open Scope float_scope.

(** The numbers [getUserContext] computes and prints into its template. *)
Record ContextFigures := {
  showerGal : float;
  bathGal : float;
  faucetGal : float;
  toiletGal : float;
  dietGal : float;
  clothingGal : float;
  gardenGal : float;
  laundryGal : float;
  totalDirect : float;
  totalVirtual : float;
  totalFootprint : float }.

(** [getUserContext()], up to the fixed text of the template: [None] is
    [undefined]. *)
Definition getUserContext (user : option User) : option ContextFigures :=
  match user with
  | None => None
  | Some user =>
      match dashboardData user with
      | None => None
      | Some data =>
          let d := dd_inputs data in
          let householdDivisor :=
            Math.max 1 (Math.or_default (householdSize user) 1) in
          let showerGal := Math.round (showerMinutes d * SHOWER_GPM * 7) in
          let bathGal := Math.round (baths d * BATH_GPB) in
          let faucetGal := Math.round (faucetMinutes d * FAUCET_GPM * 7) in
          let toiletGal := Math.round (flushes d * FLUSH_GPF * 7) in
          let dietGal := Math.round (meatMeals d * DIET_MEAT_GPM) in
          let clothingGal := Math.round (newClothingItems d * CLOTHING_AVG_GPI) in
          let gardenGal :=
            Math.round ((gardenMinutes d * GARDEN_GPM) / householdDivisor) in
          let laundryGal :=
            Math.round ((laundryLoads d * LAUNDRY_GPL) / householdDivisor) in
          let totalDirect :=
            showerGal + bathGal + faucetGal + toiletGal + laundryGal + gardenGal in
          let totalVirtual := dietGal + clothingGal in
          Some {| showerGal := showerGal; bathGal := bathGal;
                  faucetGal := faucetGal; toiletGal := toiletGal;
                  dietGal := dietGal; clothingGal := clothingGal;
                  gardenGal := gardenGal; laundryGal := laundryGal;
                  totalDirect := totalDirect; totalVirtual := totalVirtual;
                  totalFootprint := totalDirect + totalVirtual |}
      end
  end.

End Assistant.

Import Calculator JSDate Tracker Scenario.

(* ================================================================== *)
(** * Properties: binary64 arithmetic *)

Section SpecFloatFacts.
Local Open Scope Z_scope.

Lemma fexp64 (x : Z) : fexp prec emax x = Z.max (x - 53) (-1074).
Proof. reflexivity. Qed.

Lemma digits2_pos_bounds (p : positive) :
  2 ^ (Zpos (digits2_pos p) - 1) <= Zpos p < 2 ^ Zpos (digits2_pos p).
Proof.
  induction p as [p IH|p IH|]; cbn [digits2_pos].
  - rewrite Pos2Z.inj_succ, Z.pow_succ_r by lia.
    replace (Z.succ (Zpos (digits2_pos p)) - 1) with (Z.succ (Zpos (digits2_pos p) - 1)) by lia.
    rewrite Z.pow_succ_r by lia. lia.
  - rewrite Pos2Z.inj_succ, Z.pow_succ_r by lia.
    replace (Z.succ (Zpos (digits2_pos p)) - 1) with (Z.succ (Zpos (digits2_pos p) - 1)) by lia.
    rewrite Z.pow_succ_r by lia. lia.
  - simpl. lia.
Qed.

Lemma Zdigits2_bounds (m : Z) :
  0 < m -> 2 ^ (Zdigits2 m - 1) <= m < 2 ^ Zdigits2 m.
Proof.
  destruct m as [|p|p]; try lia. intros _. apply digits2_pos_bounds.
Qed.

Lemma Zdigits2_nonneg (m : Z) : 0 <= Zdigits2 m.
Proof. destruct m; simpl; lia. Qed.

Lemma Zdigits2_le (m k : Z) : 0 <= m < 2 ^ k -> 0 <= k -> Zdigits2 m <= k.
Proof.
  intros [H0 H] Hk. destruct (Z.eq_dec m 0) as [->|Hm]; [simpl; lia|].
  destruct (Zdigits2_bounds m ltac:(lia)) as [Hlo _].
  destruct (Z.le_gt_cases (Zdigits2 m) k) as [|Hgt]; [assumption|].
  assert (2 ^ k <= 2 ^ (Zdigits2 m - 1)) by (apply Z.pow_le_mono_r; lia).
  lia.
Qed.

Lemma Zdigits2_ge (m k : Z) : 2 ^ k <= m -> 0 <= k -> k + 1 <= Zdigits2 m.
Proof.
  intros H Hk. assert (0 < m) by (pose proof (Z.pow_pos_nonneg 2 k); lia).
  destruct (Zdigits2_bounds m ltac:(lia)) as [_ Hhi].
  destruct (Z.le_gt_cases (k + 1) (Zdigits2 m)) as [|Hgt]; [assumption|].
  assert (2 ^ Zdigits2 m <= 2 ^ k) by (apply Z.pow_le_mono_r; lia).
  lia.
Qed.

(** ** Right shifts *)

Lemma shr_1_m (r : shr_record) : 0 <= shr_m r -> shr_m (shr_1 r) = shr_m r / 2.
Proof.
  destruct r as [m b s]. cbn [shr_m]. intros H.
  destruct m as [|[p|p|]|p]; cbn [shr_1 shr_m]; try lia;
    Z.to_euclidean_division_equations; lia.
Qed.

Lemma iter_shr_1_m (p : positive) : forall r : shr_record,
  0 <= shr_m r -> shr_m (iter_pos shr_1 p r) = shr_m r / 2 ^ Zpos p.
Proof.
  assert (Hpos : forall q, 0 < 2 ^ Zpos q) by (intros; apply Z.pow_pos_nonneg; lia).
  induction p as [p IH|p IH|]; intros r Hr; cbn [iter_pos].
  - assert (H1 : 0 <= shr_m (shr_1 r)) by (rewrite shr_1_m by assumption; apply Z.div_pos; lia).
    assert (H2 : 0 <= shr_m (iter_pos shr_1 p (shr_1 r)))
      by (rewrite IH by assumption; apply Z.div_pos; [assumption|apply Hpos]).
    rewrite IH, IH, shr_1_m by assumption.
    rewrite !Z.div_div by (try apply Hpos; lia). f_equal.
    rewrite (Pos2Z.inj_xI p), Z.pow_add_r, Z.pow_mul_r, Z.pow_1_r by lia.
    replace ((2 ^ 2) ^ Zpos p) with (2 ^ Zpos p * 2 ^ Zpos p);
      [ring|rewrite <- Z.pow_mul_l; reflexivity].
  - assert (H2 : 0 <= shr_m (iter_pos shr_1 p r))
      by (rewrite IH by assumption; apply Z.div_pos; [assumption|apply Hpos]).
    rewrite IH, IH by assumption.
    rewrite !Z.div_div by (try apply Hpos; lia). f_equal.
    rewrite (Pos2Z.inj_xO p), Z.pow_mul_r by lia.
    replace ((2 ^ 2) ^ Zpos p) with (2 ^ Zpos p * 2 ^ Zpos p); [reflexivity|].
    rewrite <- Z.pow_mul_l. reflexivity.
  - rewrite shr_1_m by assumption. reflexivity.
Qed.


Lemma shr_m_of_loc (m : Z) (l : location) : shr_m (shr_record_of_loc m l) = m.
Proof. destruct l as [|[]]; reflexivity. Qed.

Lemma shr_spec (r : shr_record) (e n : Z) :
  0 <= shr_m r ->
  shr_m (fst (shr r e n)) = shr_m r / 2 ^ Z.max 0 n
  /\ snd (shr r e n) = e + Z.max 0 n.
Proof.
  intros Hr. destruct n as [|p|p]; cbn [shr fst snd].
  - rewrite Z.max_l, Z.div_1_r by lia. split; lia.
  - rewrite Z.max_r by lia. split; [apply iter_shr_1_m; assumption|reflexivity].
  - rewrite Z.max_l, Z.div_1_r by lia. split; lia.
Qed.

Lemma shr_fexp_spec (m e : Z) (l : location) :
  0 <= m ->
  let n := Z.max 0 (fexp prec emax (Zdigits2 m + e) - e) in
  shr_m (fst (shr_fexp prec emax m e l)) = m / 2 ^ n
  /\ snd (shr_fexp prec emax m e l) = e + n.
Proof.
  intros Hm n. unfold shr_fexp.
  pose proof (shr_spec (shr_record_of_loc m l) e
                (fexp prec emax (Zdigits2 m + e) - e)) as H.
  rewrite shr_m_of_loc in H. apply H. assumption.
Qed.

Lemma round_nearest_even_bounds (m : Z) (l : location) :
  m <= round_nearest_even m l <= m + 1.
Proof.
  destruct l as [|[]]; cbn [round_nearest_even]; try lia.
  destruct (Z.even m); lia.
Qed.

(** The two-step rounding of [binary_round_aux], on a non-negative
    mantissa: the mantissa and exponent it ends with. *)
Lemma binary_round_aux_shape (s : bool) (m e : Z) (l : location) :
  0 <= m ->
  exists m3 e3 : Z,
    0 <= m3
    /\ binary_round_aux prec emax s m e l =
         match m3 with
         | Z0 => S754_zero s
         | Zpos p => if e3 <=? 971 then S754_finite s p e3 else S754_infinity s
         | Zneg _ => S754_nan
         end
    /\ forall bound : Z,
         Zdigits2 m + e <= bound + 53 -> e <= bound -> -1074 <= bound ->
         e3 <= bound + 1.
Proof.
  intros Hm. unfold binary_round_aux.
  destruct (shr_fexp_spec m e l Hm) as [Hm1 He1].
  destruct (shr_fexp prec emax m e l) as [r1 e1]. cbn [fst snd] in Hm1, He1.
  set (n1 := Z.max 0 (fexp prec emax (Zdigits2 m + e) - e)) in *.
  assert (Hn1 : 0 <= n1) by (unfold n1; lia).
  assert (Hp1 : 0 < 2 ^ n1) by (apply Z.pow_pos_nonneg; lia).
  assert (Hm1' : 0 <= shr_m r1) by (rewrite Hm1; apply Z.div_pos; lia).
  set (m2 := round_nearest_even (shr_m r1) (loc_of_shr_record r1)).
  assert (Hm2 : shr_m r1 <= m2 <= shr_m r1 + 1) by apply round_nearest_even_bounds.
  assert (Hm2' : 0 <= m2) by lia.
  destruct (shr_fexp_spec m2 e1 loc_Exact Hm2') as [Hm3 He3].
  destruct (shr_fexp prec emax m2 e1 loc_Exact) as [r2 e2]. cbn [fst snd] in Hm3, He3.
  set (n2 := Z.max 0 (fexp prec emax (Zdigits2 m2 + e1) - e1)) in *.
  assert (Hp2 : 0 < 2 ^ n2) by (apply Z.pow_pos_nonneg; unfold n2; lia).
  exists (shr_m r2), e2. split; [rewrite Hm3; apply Z.div_pos; lia|].
  split; [reflexivity|].
  intros bound Hd He Hb.
  (* after the first shift the mantissa has at most 53 bits *)
  assert (Hlt : shr_m r1 < 2 ^ 53).
  { rewrite Hm1. apply Z.div_lt_upper_bound; [assumption|].
    destruct (Z.eq_dec m 0) as [->|Hm0]; [lia|].
    destruct (Zdigits2_bounds m ltac:(lia)) as [_ Hhi].
    eapply Z.lt_le_trans; [exact Hhi|].
    rewrite <- Z.pow_add_r by lia. apply Z.pow_le_mono_r; [lia|].
    unfold n1. rewrite fexp64. lia. }
  assert (He1b : e1 <= bound /\ -1074 <= e1 \/ e1 <= bound /\ e1 = e).
  { rewrite He1. unfold n1. rewrite fexp64. lia. }
  assert (Hd2 : Zdigits2 m2 <= 54).
  { apply Zdigits2_le; [|lia]. change (2 ^ 54) with (2 * 2 ^ 53). lia. }
  rewrite He3. unfold n2. rewrite fexp64. lia.
Qed.

Lemma binary_round_aux_not_nan (s : bool) (m e : Z) (l : location) :
  0 <= m -> SF.not_nan (binary_round_aux prec emax s m e l) = true.
Proof.
  intros Hm. destruct (binary_round_aux_shape s m e l Hm) as (m3 & e3 & H3 & -> & _).
  destruct m3 as [|p|p]; [reflexivity| |lia].
  destruct (e3 <=? 971); reflexivity.
Qed.

Lemma binary_round_aux_finite (s : bool) (m e : Z) (l : location) :
  0 <= m -> Zdigits2 m + e <= 1023 -> e <= 970 ->
  SF.finite (binary_round_aux prec emax s m e l) = true.
Proof.
  intros Hm Hd He.
  destruct (binary_round_aux_shape s m e l Hm) as (m3 & e3 & H3 & -> & Hb).
  specialize (Hb 970 ltac:(lia) He ltac:(lia)).
  destruct m3 as [|p|p]; [reflexivity| |lia].
  destruct (Z.leb_spec e3 971); [reflexivity|lia].
Qed.

Lemma binary_normalize_not_nan (m e : Z) (sz : bool) :
  SF.not_nan (binary_normalize prec emax m e sz) = true.
Proof.
  destruct m as [|p|p]; cbn [binary_normalize]; [reflexivity| |];
    unfold binary_round; destruct (shl_align _ _ _) as [mz ez];
    apply binary_round_aux_not_nan; lia.
Qed.


(** ** Canonical values *)

Lemma valid_binary_finite (s : bool) (m : positive) (e : Z) :
  valid_binary (S754_finite s m e) = true ->
  Zpos (digits2_pos m) <= 53 /\ -1074 <= e <= 971
  /\ (-1074 < e -> Zpos (digits2_pos m) = 53).
Proof.
  cbn [SpecFloat.valid_binary]. unfold bounded, canonical_mantissa.
  rewrite andb_true_iff, Z.eqb_eq, Z.leb_le, fexp64.
  change (emax - prec) with 971. lia.
Qed.

Lemma digits2_pos_iter_xO (p n : positive) :
  digits2_pos (Pos.iter xO p n) = (digits2_pos p + n)%positive.
Proof.
  induction n as [|n IH] using Pos.peano_ind.
  - cbn [Pos.iter digits2_pos]. lia.
  - rewrite Pos.iter_succ. cbn [digits2_pos]. rewrite IH. lia.
Qed.

(** Rounding leaves a 53-bit mantissa with an exponent in range as it is. *)
Lemma binary_round_aux_canonical (s : bool) (m : positive) (e : Z) :
  Zpos (digits2_pos m) = 53 -> -1074 <= e <= 971 ->
  binary_round_aux prec emax s (Zpos m) e loc_Exact = S754_finite s m e.
Proof.
  intros Hd He.
  assert (Hshr : shr_fexp prec emax (Zpos m) e loc_Exact
                 = ({| shr_m := Zpos m; shr_r := false; shr_s := false |}, e)).
  { unfold shr_fexp. cbn [Zdigits2]. rewrite fexp64, Hd.
    replace (Z.max (53 + e - 53) (-1074) - e) with 0 by lia. reflexivity. }
  unfold binary_round_aux. rewrite Hshr. cbn [shr_m loc_of_shr_record round_nearest_even].
  rewrite Hshr. cbn [shr_m]. change (emax - prec) with 971.
  destruct (Z.leb_spec e 971); [reflexivity|lia].
Qed.

(** The float of a positive integer below [2^53]: positive, with the
    exponent its bit length fixes. *)
Lemma binary_normalize_int (k : Z) :
  0 < k < 2 ^ 53 ->
  exists m : positive,
    binary_normalize prec emax k 0 false = S754_finite false m (Zdigits2 k - 53).
Proof.
  intros [Hk0 Hk]. destruct k as [|p|p]; try lia.
  assert (Hd : Zpos (digits2_pos p) <= 53) by (apply (Zdigits2_le (Zpos p) 53); lia).
  cbn [binary_normalize Zdigits2]. unfold binary_round, shl_align.
  rewrite fexp64, Z.add_0_r.
  replace (Z.max (Zpos (digits2_pos p) - 53) (-1074) - 0)
    with (Zpos (digits2_pos p) - 53) by lia.
  replace (Z.max (Zpos (digits2_pos p) - 53) (-1074))
    with (Zpos (digits2_pos p) - 53) by lia.
  destruct (Zpos (digits2_pos p) - 53) as [|q|q] eqn:Hq; try lia.
  - exists p. rewrite binary_round_aux_canonical; [reflexivity|lia|lia].
  - exists (Pos.iter xO p q).
    rewrite binary_round_aux_canonical; [reflexivity| |lia].
    rewrite digits2_pos_iter_xO, Pos2Z.inj_add. lia.
Qed.

Lemma SFdiv_core_binary_spec (mx my : positive) (ex ey : Z) :
  let e' := Z.min (fexp prec emax (Zdigits2 (Zpos mx) + ex - (Zdigits2 (Zpos my) + ey)))
                  (ex - ey) in
  let m' := (Zpos mx * 2 ^ (ex - ey - e'))%Z in
  SFdiv_core_binary prec emax (Zpos mx) ex (Zpos my) ey
  = ((m' / Zpos my)%Z, e', new_location (Zpos my) (m' mod Zpos my)%Z).
Proof.
  intros e' m'. unfold SFdiv_core_binary. fold e'.
  assert (Hs : (0 <= ex - ey - e')%Z) by (unfold e'; lia).
  assert (Hm' : match (ex - ey - e')%Z with
                | Zpos _ => Z.shiftl (Zpos mx) (ex - ey - e')
                | Z0 => Zpos mx
                | Zneg _ => 0%Z
                end = m').
  { unfold m'. destruct (ex - ey - e')%Z as [|p|p] eqn:E; [|rewrite <- E|]; try lia.
    apply Z.shiftl_mul_pow2. lia. }
  rewrite Hm'. unfold Z.div, Z.modulo.
  destruct (Z.div_eucl m' (Zpos my)); reflexivity.
Qed.

(** ** Division by a number that is at least one *)

(** Rounding a 54-bit quotient at exponent 970: the result stays finite
    unless rounding carries out of the top binade, which an exact even
    quotient cannot do. *)
Lemma binary_round_aux_top (s : bool) (q : Z) (l : location) :
  2 ^ 53 <= q < 2 ^ 54 ->
  (q / 2 = 2 ^ 53 - 1 -> l = loc_Exact /\ Z.even q = true) ->
  SF.finite (binary_round_aux prec emax s q 970 l) = true.
Proof.
  intros Hq Hexact.
  assert (Hd : Zdigits2 q = 54).
  { apply Z.le_antisymm; [apply Zdigits2_le; lia|apply (Zdigits2_ge q 53); lia]. }
  assert (Hshr : shr_fexp prec emax q 970 l = (shr_1 (shr_record_of_loc q l), 971)).
  { unfold shr_fexp. rewrite Hd, fexp64. reflexivity. }
  unfold binary_round_aux. rewrite Hshr.
  set (r1 := shr_1 (shr_record_of_loc q l)).
  assert (Hm1 : shr_m r1 = q / 2).
  { unfold r1. rewrite shr_1_m; rewrite shr_m_of_loc; [reflexivity|lia]. }
  set (m2 := round_nearest_even (shr_m r1) (loc_of_shr_record r1)).
  assert (Hm2 : 2 ^ 52 <= m2 < 2 ^ 53).
  { pose proof (round_nearest_even_bounds (shr_m r1) (loc_of_shr_record r1)) as Hb.
    fold m2 in Hb. rewrite Hm1 in Hb.
    change (2 ^ 53) with 9007199254740992 in *.
    change (2 ^ 54) with 18014398509481984 in *.
    change (2 ^ 52) with 4503599627370496.
    assert (Hq2 : 4503599627370496 <= q / 2 <= 9007199254740991)
      by (Z.to_euclidean_division_equations; lia).
    split; [lia|].
    destruct (Z.eq_dec (q / 2) 9007199254740991) as [Htop|Hlow]; [|lia].
    destruct (Hexact Htop) as [-> Hev].
    assert (Hr1 : loc_of_shr_record r1 = loc_Exact).
    { unfold r1. destruct q as [|[p|p|]|p]; try discriminate Hev; try lia. reflexivity. }
    unfold m2. rewrite Hr1. cbn [round_nearest_even]. rewrite Hm1. lia. }
  destruct m2 as [|p2|p2] eqn:E2; try lia.
  assert (Hd2 : Zpos (digits2_pos p2) = 53).
  { apply Z.le_antisymm; [apply (Zdigits2_le (Zpos p2) 53); lia
                         |apply (Zdigits2_ge (Zpos p2) 52); lia]. }
  assert (Hshr2 : shr_fexp prec emax (Zpos p2) 971 loc_Exact
                  = ({| shr_m := Zpos p2; shr_r := false; shr_s := false |}, 971)).
  { unfold shr_fexp. cbn [Zdigits2]. rewrite fexp64, Hd2. reflexivity. }
  rewrite Hshr2. reflexivity.
Qed.

(** A finite value divided by a value that is at least one is finite. *)
Lemma SFdiv_finite (x y : spec_float) :
  valid_binary x = true -> valid_binary y = true ->
  SF.finite x = true ->
  SFleb (S754_finite false 4503599627370496 (-52)) y = true ->
  SF.finite (SF64div x y) = true.
Proof.
  intros Hvx Hvy Hfx Hy.
  destruct y as [sy|sy| |sy my ey]; try discriminate Hy.
  - (* an infinite divisor *)
    destruct x; try discriminate Hfx; reflexivity.
  - destruct sy; [discriminate Hy|].
    assert (Hey : -52 <= ey).
    { unfold SFleb, SFcompare in Hy.
      destruct (Z.compare_spec (-52) ey); try lia; discriminate Hy. }
    apply valid_binary_finite in Hvy. destruct Hvy as (_ & Hey2 & Hdy).
    specialize (Hdy ltac:(lia)).
    destruct x as [sx|sx| |sx mx ex]; try discriminate Hfx; [reflexivity|].
    apply valid_binary_finite in Hvx. destruct Hvx as (Hdx & Hex & _).
    unfold SF64div, SFdiv. rewrite SFdiv_core_binary_spec. cbn [Zdigits2].
    rewrite Hdy, fexp64.
    set (dx := Zpos (digits2_pos mx)) in *.
    set (e' := Z.min (Z.max (dx + ex - (53 + ey) - 53) (-1074)) (ex - ey)).
    set (sh := ex - ey - e').
    assert (Hsh : 0 <= sh) by (unfold sh, e'; lia).
    assert (He' : e' <= 970) by (unfold e'; lia).
    assert (Hp : 0 < 2 ^ sh) by (apply Z.pow_pos_nonneg; lia).
    destruct (digits2_pos_bounds mx) as [_ Hmx]. fold dx in Hmx.
    destruct (digits2_pos_bounds my) as [Hmy _]. rewrite Hdy in Hmy.
    change (2 ^ (53 - 1)) with (2 ^ 52) in Hmy.
    assert (Hq0 : 0 <= Zpos mx * 2 ^ sh / Zpos my) by (apply Z.div_pos; lia).
    assert (Hdx0 : 0 < dx) by (unfold dx; lia).
    (* the bit length of the quotient *)
    assert (Hdq : Zdigits2 (Zpos mx * 2 ^ sh / Zpos my) <= Z.max 0 (dx + sh - 52)).
    { destruct (Z.le_gt_cases 52 (dx + sh)) as [Hge|Hlt].
      - rewrite Z.max_r by lia. apply Zdigits2_le; [|lia]. split; [assumption|].
        apply Z.div_lt_upper_bound; [lia|].
        apply Z.lt_le_trans with (2 ^ dx * 2 ^ sh); [nia|].
        replace (2 ^ dx * 2 ^ sh) with (2 ^ 52 * 2 ^ (dx + sh - 52)).
        + apply Z.mul_le_mono_nonneg_r; [apply Z.pow_nonneg; lia|assumption].
        + rewrite <- !Z.pow_add_r by lia. f_equal. lia.
      - rewrite Z.max_l by lia.
        rewrite Z.div_small; [reflexivity|]. split; [lia|].
        apply Z.lt_le_trans with (2 ^ dx * 2 ^ sh); [nia|].
        rewrite <- Z.pow_add_r by lia.
        apply Z.le_trans with (2 ^ 52); [apply Z.pow_le_mono_r; lia|assumption]. }
    destruct (Z.le_gt_cases (dx + ex - ey - 52) 1023) as [Hgen|Hcorner].
    + apply binary_round_aux_finite; [assumption| |assumption].
      assert (Hshv : sh = ex - ey - e') by reflexivity. lia.
    + (* the dividend in the top binade and the divisor in [1, 2) *)
      assert (Hdx53 : dx = 53) by lia.
      assert (Hex971 : ex = 971) by lia.
      assert (Hey52 : ey = -52) by lia.
      assert (He970 : e' = 970) by (unfold e'; lia).
      assert (Hsh53 : sh = 53) by (unfold sh; lia).
      rewrite He970. rewrite Hsh53 in *. rewrite Hdx53 in *.
      set (q := Zpos mx * 2 ^ 53 / Zpos my) in *.
      change (2 ^ 53) with 9007199254740992 in *.
      change (2 ^ 52) with 4503599627370496 in *.
      assert (Hqm : q * Zpos my <= Zpos mx * 9007199254740992)
        by (unfold q; rewrite Z.mul_comm; apply Z.mul_div_le; lia).
      assert (Hq54 : q < 18014398509481984) by nia.
      destruct (Z.lt_ge_cases q 9007199254740992) as [Hsmall|Hbig].
      * apply binary_round_aux_finite; [assumption| |lia].
        pose proof (Zdigits2_le q 53 ltac:(change (2 ^ 53) with 9007199254740992; lia) ltac:(lia)).
        lia.
      * apply binary_round_aux_top.
        { change (2 ^ 53) with 9007199254740992.
          change (2 ^ 54) with 18014398509481984. lia. }
        change (2 ^ 53) with 9007199254740992. intros Htop.
        assert (Hq' : 18014398509481982 <= q)
          by (Z.to_euclidean_division_equations; lia).
        assert (Hmy1 : Zpos my = 4503599627370496) by nia.
        assert (Hmx1 : Zpos mx = 9007199254740991) by nia.
        assert (Hqv : q = 18014398509481982).
        { unfold q. rewrite Hmy1, Hmx1. reflexivity. }
        split.
        -- rewrite Hmy1, Hmx1. reflexivity.
        -- rewrite Hqv. reflexivity.
Qed.


(** Dividing by a value that is at least one neither creates nor removes
    a NaN or an infinity. *)
Lemma SFdiv_finite_iff (x y : spec_float) :
  valid_binary x = true -> valid_binary y = true ->
  SFleb (S754_finite false 4503599627370496 (-52)) y = true ->
  SF.finite (SF64div x y) = SF.finite x.
Proof.
  intros Hvx Hvy Hy. destruct (SF.finite x) eqn:Hx.
  - apply SFdiv_finite; assumption.
  - destruct y as [sy|sy| |sy my ey]; try discriminate Hy;
      destruct x as [sx|sx| |sx mx ex]; try discriminate Hx; reflexivity.
Qed.

End SpecFloatFacts.


(* ------------------------------------------------------------------ *)

Section PrimFloatFacts.
Local Open Scope float_scope.

Lemma SFcompare_refl (x : spec_float) :
  SFcompare x x = if SF.not_nan x then Some Eq else None.
Proof.
  destruct x as [s|s| |s m e]; cbn; try reflexivity.
  - destruct s; reflexivity.
  - destruct s; rewrite Z.compare_refl, Pos.compare_cont_refl; reflexivity.
Qed.

Lemma is_nan_Prim2SF (x : float) : is_nan x = negb (SF.not_nan (Prim2SF x)).
Proof.
  unfold is_nan. rewrite eqb_spec. unfold SFeqb. rewrite SFcompare_refl.
  destruct (SF.not_nan (Prim2SF x)); reflexivity.
Qed.

Lemma Prim2SF_eq_inv (x : float) (v : spec_float) :
  Prim2SF x = v -> x = SF2Prim v.
Proof. intros <-. symmetry. apply SF2Prim_Prim2SF. Qed.

Lemma min_100 (r : float) :
  is_nan r = false -> Math.min 100 r = if 100 <? r then 100 else r.
Proof.
  intros H. unfold Math.min. rewrite H. change (is_nan 100) with false. cbn [orb].
  destruct (100 <? r); [reflexivity|]. destruct (r <? 100); reflexivity.
Qed.

Lemma max_0 (r : float) :
  is_nan r = false -> Math.max 0 r = if 0 <? r then r else 0.
Proof.
  intros H. unfold Math.max. rewrite H. change (is_nan 0) with false. cbn [orb].
  destruct (0 <? r); [reflexivity|]. destruct (r <? 0); reflexivity.
Qed.

Lemma max_1 (r : float) :
  is_nan r = false -> Math.max 1 r = if 1 <? r then r else 1.
Proof.
  intros H. unfold Math.max. rewrite H. change (is_nan 1) with false. cbn [orb].
  destruct (1 <? r); [reflexivity|]. destruct (r <? 1); reflexivity.
Qed.

Lemma clampScore_negative (r : float) (m : positive) (e : Z) :
  Prim2SF r = S754_finite true m e -> clampScore r = 0.
Proof.
  intros H. unfold clampScore.
  assert (Hn : is_nan r = false) by (rewrite is_nan_Prim2SF, H; reflexivity).
  rewrite (min_100 r Hn).
  replace (100 <? r) with false by (rewrite ltb_spec, H; reflexivity).
  rewrite (max_0 r Hn).
  replace (0 <? r) with false by (rewrite ltb_spec, H; reflexivity).
  reflexivity.
Qed.

Lemma clampScore_large (r : float) (m : positive) (e : Z) :
  Prim2SF r = S754_finite false m e -> (-46 < e)%Z -> clampScore r = 100.
Proof.
  intros H He. unfold clampScore.
  assert (Hn : is_nan r = false) by (rewrite is_nan_Prim2SF, H; reflexivity).
  rewrite (min_100 r Hn).
  replace (100 <? r) with true; [reflexivity|].
  rewrite ltb_spec, H. change (Prim2SF 100) with (S754_finite false 7036874417766400 (-46)).
  unfold SFltb, SFcompare. rewrite (proj2 (Z.compare_lt_iff _ _) He). reflexivity.
Qed.


Lemma In_Zrange (lo : Z) (len : nat) (k : Z) :
  (lo <= k < lo + Z.of_nat len)%Z -> In k (Zrange lo len).
Proof.
  intros H. unfold Zrange. apply in_map_iff. exists (Z.to_nat (k - lo)).
  split; [lia|]. apply in_seq. lia.
Qed.

(** The whole numbers from 1 to 100 are their own clamping, and those from
    101 to 127 exceed 100. *)
Lemma clampScore_small (k : Z) :
  (0 <= k <= 100)%Z -> clampScore (Math.of_Z k) = Math.of_Z k.
Proof.
  intros H.
  assert (Hall : forallb (fun k => Leibniz.eqb (clampScore (Math.of_Z k)) (Math.of_Z k))
                   (Zrange 0 101) = true) by (vm_compute; reflexivity).
  rewrite forallb_forall in Hall. apply Leibniz.eqb_spec, Hall, In_Zrange. lia.
Qed.

Lemma clampScore_medium (k : Z) :
  (100 < k < 128)%Z -> clampScore (Math.of_Z k) = 100.
Proof.
  intros H.
  assert (Hall : forallb (fun k => Leibniz.eqb (clampScore (Math.of_Z k)) 100)
                   (Zrange 101 27) = true) by (vm_compute; reflexivity).
  rewrite forallb_forall in Hall. apply Leibniz.eqb_spec, Hall, In_Zrange. lia.
Qed.

Lemma of_uint63_int (k : Z) :
  (0 < k < 2 ^ 53)%Z ->
  exists m : positive,
    Prim2SF (of_uint63 (Uint63.of_Z k)) = S754_finite false m (Zdigits2 k - 53).
Proof.
  intros H. rewrite of_uint63_spec, Uint63.of_Z_spec.
  rewrite Z.mod_small; [apply binary_normalize_int; assumption|].
  split; [lia|]. eapply Z.lt_trans; [apply H|reflexivity].
Qed.

Lemma clampScore_of_Z (k : Z) :
  (- 2 ^ 53 < k < 2 ^ 53)%Z ->
  exists n : Z, (0 <= n <= 100)%Z /\ clampScore (Math.of_Z k) = Math.of_Z n.
Proof.
  intros Hk.
  destruct (Z.lt_trichotomy k 0) as [Hneg|[->|Hpos]].
  - exists 0%Z. split; [lia|].
    destruct (of_uint63_int (- k) ltac:(lia)) as [m Hm].
    apply (clampScore_negative _ m (Zdigits2 (- k) - 53)).
    unfold Math.of_Z. destruct (Z.ltb_spec k 0); [|lia].
    rewrite opp_spec, Hm. reflexivity.
  - exists 0%Z. split; [lia|reflexivity].
  - destruct (Z.le_gt_cases k 100) as [Hs|Hb].
    + exists k. split; [lia|apply clampScore_small; lia].
    + exists 100%Z. split; [lia|].
      destruct (Z.lt_ge_cases k 128) as [Hm|Hl]; [apply clampScore_medium; lia|].
      destruct (of_uint63_int k ltac:(lia)) as [m Hm].
      apply (clampScore_large _ m (Zdigits2 k - 53)).
      * unfold Math.of_Z. destruct (Z.ltb_spec k 0); [lia|exact Hm].
      * pose proof (Zdigits2_ge k 7 ltac:(simpl; lia) ltac:(lia)). lia.
Qed.

Lemma half_up_bound (m : positive) (e : Z) (s : bool) :
  (Zpos (digits2_pos m) <= 53)%Z -> (e < 0)%Z ->
  (- 2 ^ 53 < Math.half_up (if s then Zneg m else Zpos m) e < 2 ^ 53)%Z.
Proof.
  intros Hd He. unfold Math.half_up.
  assert (Hm : (Zpos m < 2 ^ 53)%Z).
  { destruct (digits2_pos_bounds m) as [_ H]. eapply Z.lt_le_trans; [exact H|].
    apply Z.pow_le_mono_r; lia. }
  replace (1 - e)%Z with (Z.succ (- e)) by lia. rewrite Z.pow_succ_r by lia.
  assert (HP : (2 <= 2 ^ (- e))%Z).
  { change 2%Z with (2 ^ 1)%Z at 1. apply Z.pow_le_mono_r; lia. }
  set (P := (2 ^ (- e))%Z) in *.
  set (v := if s then Zneg m else Zpos m).
  assert (Hv : (- 2 ^ 53 < v < 2 ^ 53)%Z) by (unfold v; destruct s; lia).
  change (2 ^ 53)%Z with 9007199254740992%Z in *.
  split.
  - apply Z.lt_le_trans with (- 9007199254740992 + 1)%Z; [lia|].
    apply Z.div_le_lower_bound; nia.
  - apply Z.div_lt_upper_bound; nia.
Qed.

(** The clamped, rounded value of a number is a whole number between 0
    and 100. *)
Lemma clampScore_round (x : float) :
  is_nan x = false ->
  exists n : Z, (0 <= n <= 100)%Z /\ clampScore (Math.round x) = Math.of_Z n.
Proof.
  intros Hn. unfold Math.round.
  pose proof (Prim2SF_valid x) as Hv.
  rewrite is_nan_Prim2SF in Hn.
  destruct (Prim2SF x) as [s|s| |s m e] eqn:Hx; try discriminate Hn.
  - apply Prim2SF_eq_inv in Hx. subst x. exists 0%Z. split; [lia|].
    destruct s; reflexivity.
  - apply Prim2SF_eq_inv in Hx. subst x.
    destruct s; [exists 0%Z|exists 100%Z]; (split; [lia|reflexivity]).
  - apply valid_binary_finite in Hv. destruct Hv as (Hd & He & _).
    destruct (Z.leb_spec 0 e) as [Hpos|Hneg].
    + destruct s.
      * exists 0%Z. split; [lia|]. exact (clampScore_negative x m e Hx).
      * exists 100%Z. split; [lia|]. apply (clampScore_large x m e Hx). lia.
    + destruct (Z.eqb_spec (Math.half_up (if s then Zneg m else Zpos m) e) 0).
      * exists 0%Z. split; [lia|]. destruct s; reflexivity.
      * apply clampScore_of_Z, half_up_bound; assumption.
Qed.


(** ** Operations that keep a number a number *)

Lemma SFsub_not_nan_r (x c : spec_float) :
  SF.nonzero_finite c = true -> SF.not_nan x = true ->
  SF.not_nan (SF64sub x c) = true.
Proof.
  destruct c as [| | |sc mc ec]; try discriminate. intros _.
  destruct x as [s|s| |s m e]; try discriminate; intros _; try reflexivity.
  apply binary_normalize_not_nan.
Qed.

Lemma SFsub_not_nan_l (c y : spec_float) :
  SF.nonzero_finite c = true -> SF.not_nan y = true ->
  SF.not_nan (SF64sub c y) = true.
Proof.
  destruct c as [| | |sc mc ec]; try discriminate. intros _.
  destruct y as [s|s| |s m e]; try discriminate; intros _; try reflexivity.
  apply binary_normalize_not_nan.
Qed.

Lemma SFdiv_not_nan_r (x c : spec_float) :
  SF.nonzero_finite c = true -> SF.not_nan x = true ->
  SF.not_nan (SF64div x c) = true.
Proof.
  destruct c as [| | |sc mc ec]; try discriminate. intros _.
  destruct x as [s|s| |s m e]; try discriminate; intros _; try reflexivity.
  unfold SF64div, SFdiv. rewrite SFdiv_core_binary_spec.
  apply binary_round_aux_not_nan, Z.div_pos; [|lia].
  apply Z.mul_nonneg_nonneg; [lia|]. apply Z.pow_nonneg. lia.
Qed.

Lemma rawScore_not_nan (g : float) :
  is_nan g = false -> is_nan (100 - ((g - 1500) / 40)) = false.
Proof.
  rewrite !is_nan_Prim2SF, !negb_false_iff. intros H.
  rewrite sub_spec, div_spec, sub_spec.
  apply SFsub_not_nan_l; [reflexivity|].
  apply SFdiv_not_nan_r; [reflexivity|].
  apply SFsub_not_nan_r; [reflexivity|exact H].
Qed.

Lemma round_not_nan (x : float) : is_nan x = false -> is_nan (Math.round x) = false.
Proof.
  intros Hn. unfold Math.round. destruct (Prim2SF x) as [s|s| |s m e] eqn:Hx; try exact Hn.
  destruct (0 <=? e)%Z; [exact Hn|].
  destruct (_ =? 0)%Z; [destruct s; reflexivity|].
  unfold Math.of_Z. destruct (_ <? 0)%Z; rewrite is_nan_Prim2SF, ?opp_spec, of_uint63_spec;
    match goal with |- context [binary_normalize ?p ?q ?a ?b ?c] =>
      pose proof (binary_normalize_not_nan a b c) as Hb;
      destruct (binary_normalize p q a b c) end; try discriminate Hb; reflexivity.
Qed.

(** The engine's [Math.max(0, Math.min(100, r))] and the specification's
    [clamp(r, 0, 100)] are the same number ([-0] and [+0] are equal). *)
Lemma clampScore_clamp (r : float) :
  is_nan r = false -> (clampScore r =? clamp r 0 100) = true.
Proof.
  intros Hn. unfold clampScore, clamp. rewrite (min_100 r Hn).
  assert (Hself : (r =? r) = true)
    by (unfold is_nan in Hn; apply negb_false_iff in Hn; exact Hn).
  pose proof (ltb_spec 100 r) as H100. pose proof (ltb_spec 0 r) as H0.
  pose proof (ltb_spec r 0) as Hr0. pose proof (eqb_spec 0 r) as He.
  pose proof (max_0 r Hn) as Hmax.
  change (Prim2SF 100) with (S754_finite false 7036874417766400 (-46)) in H100.
  change (Prim2SF 0) with (S754_zero false) in H0, Hr0, He.
  rewrite is_nan_Prim2SF in Hn.
  destruct (Prim2SF r) as [s|s| |s m e]; try discriminate Hn;
    cbn in H0, Hr0, He.
  - (* a zero *)
    cbn in H100. rewrite H100, Hr0, Hmax, H0. exact He.
  - (* an infinity *)
    cbn in H100. destruct s; rewrite H100, Hr0; [rewrite Hmax, H0|]; reflexivity.
  - (* a finite non-zero number *)
    destruct s.
    + cbn in H100. rewrite H100, Hr0, Hmax, H0. reflexivity.
    + rewrite Hr0. destruct (100 <? r); [reflexivity|].
      rewrite Hmax, H0. exact Hself.
Qed.

End PrimFloatFacts.

(* ================================================================== *)
(** * Properties: the calculation engine *)

Section CalculatorFacts.
Import WATER_METRICS.
Local Open Scope float_scope.

(** [Math.round] on the half-way and signed-zero cases. *)
Lemma round_examples :
  Math.round 2.5 = 3 /\ Math.round (-2.5) = -2 /\ Math.round (-0.4) = -0
  /\ Math.round 0.49999999999999994 = 0 /\ Math.round 8.9075 = 9
  /\ Math.round nan = nan /\ Math.round infinity = infinity.
Proof. vm_compute. repeat split; reflexivity. Qed.

Lemma stats_score (inputs : WaterUsageMetrics) (hs : option float) :
  score (stats inputs hs) = scoreOf (grandTotal (stats inputs hs)).
Proof. reflexivity. Qed.

Lemma of_Z_not_nan (k : Z) : is_nan (Math.of_Z k) = false.
Proof.
  unfold Math.of_Z.
  destruct (_ <? 0)%Z; rewrite is_nan_Prim2SF, ?opp_spec, of_uint63_spec;
    match goal with |- context [binary_normalize ?p ?q ?a ?b ?c] =>
      pose proof (binary_normalize_not_nan a b c) as Hb;
      destruct (binary_normalize p q a b c) end; try discriminate Hb; reflexivity.
Qed.

Lemma is_finite_Prim2SF (x : float) : is_finite x = SF.finite (Prim2SF x).
Proof.
  unfold is_finite, is_infinity. rewrite is_nan_Prim2SF, eqb_spec, abs_spec.
  change (Prim2SF infinity) with (S754_infinity false).
  destruct (Prim2SF x) as [s|s| |s m e]; reflexivity.
Qed.

(** ** C1 *)

(** C1, as the engine computes it: for the stated inputs and a household
    of one, the thirteen category values, [directTotal] and [virtualTotal]
    are the binary64 values of the stated decimals, except that
    [Showers] is 117.60000000000001 and [grandTotal] is 5143.700000000001
    (each one unit in the last place above the stated decimal); [trend] is
    22.469047619047636; and the score is 9: the raw score is
    [100 - 3643.7 / 40 = 8.9075], which rounds to 9 and is not clamped. *)
Theorem default_example_stats :
  let r := stats DEFAULT_INPUTS (Some 1) in
  breakdown r =
    {| Showers := 117.60000000000001; Baths := 40; Toilet := 56;
       Faucets := 52.5; Laundry := 120; Dishes := 30; Garden := 180;
       Clothing := 1400; Diet := 3150; Transport := 50; AI_Usage := 2.6;
       Recycling := -25; Compost := -30 |}
  /\ directTotal r = 596.1
  /\ virtualTotal r = 4547.6
  /\ grandTotal r = 5143.700000000001
  /\ (abs (Showers (breakdown r) - 117.6) <? 1e-12) = true
  /\ (abs (grandTotal r - 5143.7) <? 1e-11) = true
  /\ trend r = 22.469047619047636
  /\ (abs (trend r - 22.47) <? 0.001) = true
  /\ score r = 9.
Proof. vm_compute. repeat split; reflexivity. Qed.

(** C1 as stated fails on the score: it is 9, not 0. *)
Lemma default_example_score_not_zero :
  score (stats DEFAULT_INPUTS (Some 1)) <> 0
  /\ (score (stats DEFAULT_INPUTS (Some 1)) =? 0) = false.
Proof.
  split; [|vm_compute; reflexivity].
  intros H. apply (f_equal is_zero) in H. vm_compute in H. discriminate H.
Qed.

(** ** C4 *)

(** C4, amended: whenever the weekly total is a number (not NaN), the
    score is numerically [clamp(round(100 - (grandTotal - 1500) / 40), 0,
    100)] and is a whole number between 0 and 100; a total of exactly 1500
    gives 100 and a total of exactly 5500 gives 0. *)
Theorem score_is_clamped_round (inputs : WaterUsageMetrics) (hs : option float) :
  let r := stats inputs hs in
  (is_nan (grandTotal r) = false ->
     (score r =? clamp (Math.round (100 - (grandTotal r - 1500) / 40)) 0 100) = true
     /\ exists n : Z, (0 <= n <= 100)%Z /\ score r = Math.of_Z n)
  /\ (grandTotal r = 1500 -> score r = 100)
  /\ (grandTotal r = 5500 -> score r = 0).
Proof.
  intros r. subst r. rewrite (stats_score inputs hs).
  generalize (grandTotal (stats inputs hs)). intros g. unfold scoreOf.
  split; [|split].
  - intros Hn. apply rawScore_not_nan in Hn. split.
    + apply (clampScore_clamp _ (round_not_nan _ Hn)).
    + apply (clampScore_round _ Hn).
  - intros ->. reflexivity.
  - intros ->. reflexivity.
Qed.

Lemma score_is_clamped_round_witness :
  (exists n : Z, (0 <= n <= 100)%Z
     /\ score (stats DEFAULT_INPUTS (Some 1)) = Math.of_Z n)
  /\ score (stats idealInputs (Some 1)) = 100
  /\ score (stats heavyInputs (Some 1)) = 0.
Proof.
  split; [|split].
  - apply (proj1 (score_is_clamped_round DEFAULT_INPUTS (Some 1))). reflexivity.
  - apply (proj1 (proj2 (score_is_clamped_round idealInputs (Some 1)))). reflexivity.
  - apply (proj2 (proj2 (score_is_clamped_round heavyInputs (Some 1)))). reflexivity.
Defined.

(** C4 as stated fails: for inputs that are all finite numbers, two of
    them near the top of the binary64 range, the clothing term overflows
    to [+∞] and the compost credit to [-∞], their sum is NaN, and so is
    the score: not a whole number between 0 and 100. *)
Lemma score_nan_on_overflow :
  finiteInputs overflowInputs = true
  /\ is_nan (score (stats overflowInputs (Some 1))) = true
  /\ ~ exists n : Z, (0 <= n <= 100)%Z
         /\ score (stats overflowInputs (Some 1)) = Math.of_Z n.
Proof.
  split; [reflexivity|]. split; [reflexivity|].
  intros [n [_ H]]. apply (f_equal is_nan) in H.
  rewrite of_Z_not_nan in H. vm_compute in H. discriminate H.
Qed.

(** ** C7 *)

Lemma or_default_not_nan (hs : option float) :
  is_nan (Math.or_default hs 1) = false.
Proof.
  destruct hs as [v|]; [|reflexivity]. unfold Math.or_default, Math.truthy.
  destruct (is_zero v); [reflexivity|]. destruct (is_nan v) eqn:E; [reflexivity|exact E].
Qed.

Lemma householdDivisor_eq (hs : option float) :
  householdDivisor hs =
    if 1 <? Math.or_default hs 1 then Math.or_default hs 1 else 1.
Proof. unfold householdDivisor. apply max_1, or_default_not_nan. Qed.

Lemma ltb_leb (x y : float) : (x <? y) = true -> (x <=? y) = true.
Proof.
  rewrite ltb_spec, leb_spec. unfold SFltb, SFleb.
  destruct (SFcompare _ _) as [[]|]; congruence.
Qed.

Lemma householdDivisor_ge_1 (hs : option float) :
  (1 <=? householdDivisor hs) = true.
Proof.
  rewrite householdDivisor_eq.
  destruct (1 <? Math.or_default hs 1) eqn:E; [apply ltb_leb, E|reflexivity].
Qed.

Lemma not_above_1 (v : float) : (v <=? 0) = true -> (1 <? v) = false.
Proof.
  rewrite leb_spec, ltb_spec.
  change (Prim2SF 0) with (S754_zero false).
  change (Prim2SF 1) with (S754_finite false 4503599627370496 (-52)).
  destruct (Prim2SF v) as [s|s| |s m e]; try destruct s; cbn; congruence.
Qed.

(** A number of magnitude at most 1e300, times a rate below 32, is a
    finite number. *)
Lemma mul_rate_finite (x c : float) (sc : bool) (mc : positive) (ec : Z) :
  Prim2SF c = S754_finite sc mc ec -> (ec <= -48)%Z ->
  (abs x <=? 1e300) = true ->
  is_finite (x * c) = true.
Proof.
  intros Hc Hec Hx. rewrite is_finite_Prim2SF, mul_spec, Hc.
  rewrite leb_spec, abs_spec in Hx.
  pose proof (Prim2SF_valid x) as Hvx. pose proof (Prim2SF_valid c) as Hvc.
  rewrite Hc in Hvc.
  change (Prim2SF 1e300)
    with (S754_finite false 6724873095247260 944) in Hx.
  destruct (Prim2SF x) as [s|s| |s m e]; try discriminate Hx;
    [destruct s; reflexivity|].
  cbn [SFabs SFleb SFcompare] in Hx.
  assert (He : (e <= 944)%Z).
  { destruct (Z.compare_spec e 944); try lia; discriminate Hx. }
  destruct (valid_binary_finite s m e Hvx) as (Hdx & _ & _).
  destruct (valid_binary_finite sc mc ec Hvc) as (Hdc & _ & _).
  pose proof (digits2_pos_bounds m) as [_ Hm].
  pose proof (digits2_pos_bounds mc) as [_ Hmc].
  assert (Hm' : (Zpos m < 2 ^ 53)%Z).
  { eapply Z.lt_le_trans; [exact Hm|]. apply Z.pow_le_mono_r; lia. }
  assert (Hmc' : (Zpos mc < 2 ^ 53)%Z).
  { eapply Z.lt_le_trans; [exact Hmc|]. apply Z.pow_le_mono_r; lia. }
  cbn [SF64mul SFmul]. apply binary_round_aux_finite; [lia| |lia].
  assert (Hd : (Zdigits2 (Zpos (m * mc)) <= 106)%Z).
  { apply Zdigits2_le; [|lia]. rewrite Pos2Z.inj_mul.
    change (2 ^ 106)%Z with (2 ^ 53 * 2 ^ 53)%Z. nia. }
  lia.
Qed.

(** C7: the divisor is 1 when the household size is missing, NaN, or at
    most 0; it is [Math.max(1, householdSize)] for every household size
    that is a number; it is always at least 1 (so never zero, negative or
    NaN).  Each of the three shared categories is its product divided by
    that divisor, and the quotient is a finite number exactly when the
    product is: the division never produces a NaN or an infinity of its
    own.  So for inputs of magnitude up to 1e300 the three categories are
    finite numbers, whatever the household size. *)
Theorem household_divisor_safe (inputs : WaterUsageMetrics) (hs : option float) :
  householdDivisor None = 1
  /\ (forall v, is_nan v = true \/ (v <=? 0) = true ->
                householdDivisor (Some v) = 1)
  /\ (forall v, is_nan v = false -> householdDivisor (Some v) = Math.max 1 v)
  /\ (1 <=? householdDivisor hs) = true
  /\ (let b := breakdown (stats inputs hs) in
      let d := householdDivisor hs in
      (Laundry b = laundryLoads inputs * LAUNDRY_GPL / d
       /\ Dishes b = dishwasherLoads inputs * DISHWASHER_GPC / d
       /\ Garden b = gardenMinutes inputs * GARDEN_GPM / d)
      /\ (is_finite (Laundry b) = is_finite (laundryLoads inputs * LAUNDRY_GPL)
          /\ is_finite (Dishes b)
             = is_finite (dishwasherLoads inputs * DISHWASHER_GPC)
          /\ is_finite (Garden b) = is_finite (gardenMinutes inputs * GARDEN_GPM))
      /\ ((abs (laundryLoads inputs) <=? 1e300) = true ->
          is_finite (Laundry b) = true)
      /\ ((abs (dishwasherLoads inputs) <=? 1e300) = true ->
          is_finite (Dishes b) = true)
      /\ ((abs (gardenMinutes inputs) <=? 1e300) = true ->
          is_finite (Garden b) = true)).
Proof.
  assert (Hdiv : forall p : float,
             is_finite (p / householdDivisor hs) = is_finite p).
  { intros p. rewrite !is_finite_Prim2SF, div_spec.
    apply SFdiv_finite_iff; try apply Prim2SF_valid.
    pose proof (householdDivisor_ge_1 hs) as H. rewrite leb_spec in H. exact H. }
  split; [reflexivity|]. split; [|split; [|split; [apply householdDivisor_ge_1|]]].
  - intros v Hv. rewrite householdDivisor_eq. unfold Math.or_default, Math.truthy.
    destruct (is_zero v); [reflexivity|].
    destruct (is_nan v) eqn:En; [reflexivity|]. cbn [orb negb].
    destruct Hv as [Hv|Hv]; [discriminate Hv|].
    rewrite (not_above_1 v Hv). reflexivity.
  - intros v Hn. rewrite householdDivisor_eq, (max_1 v Hn).
    unfold Math.or_default, Math.truthy. rewrite Hn.
    destruct (is_zero v) eqn:Ez; [|reflexivity]. cbn [orb negb].
    replace (1 <? v) with false; [reflexivity|].
    symmetry. apply not_above_1. unfold is_zero in Ez.
    rewrite leb_spec. rewrite eqb_spec in Ez. unfold SFeqb in Ez. unfold SFleb.
    destruct (SFcompare _ _) as [[]|]; congruence.
  - cbv zeta. cbn [breakdown stats Laundry Dishes Garden].
    split; [repeat split|]. split; [repeat split; apply Hdiv|].
    split; [|split]; intros Hb; rewrite Hdiv.
    + apply (mul_rate_finite _ LAUNDRY_GPL false 8444249301319680 (-48));
        [reflexivity|lia|exact Hb].
    + apply (mul_rate_finite _ DISHWASHER_GPC false 6755399441055744 (-50));
        [reflexivity|lia|exact Hb].
    + apply (mul_rate_finite _ GARDEN_GPM false 6755399441055744 (-49));
        [reflexivity|lia|exact Hb].
Qed.

Lemma household_divisor_safe_witness :
  householdDivisor (Some (-3)) = 1
  /\ householdDivisor (Some 4) = Math.max 1 4
  /\ Laundry (breakdown (stats DEFAULT_INPUTS (Some 4))) = 30
  /\ is_finite (Garden (breakdown (stats DEFAULT_INPUTS (Some 0)))) = true.
Proof.
  destruct (household_divisor_safe DEFAULT_INPUTS (Some 0))
    as (_ & H1 & H2 & _ & _ & _ & _ & _ & Hg).
  destruct (household_divisor_safe DEFAULT_INPUTS (Some 4))
    as (_ & _ & _ & _ & (Hl & _) & _).
  split; [apply H1; right; reflexivity|].
  split; [apply H2; reflexivity|].
  split; [rewrite Hl; reflexivity|apply Hg; reflexivity].
Defined.

(** C7 as stated fails: for inputs that are all finite numbers, a number
    of laundry loads near the top of the binary64 range makes the product
    overflow, and the laundry category of a household of two is [+∞]. *)
Lemma household_share_infinite_on_overflow :
  finiteInputs hugeLaundry = true
  /\ householdDivisor (Some 2) = 2
  /\ Laundry (breakdown (stats hugeLaundry (Some 2))) = infinity
  /\ is_finite (Laundry (breakdown (stats hugeLaundry (Some 2)))) = false.
Proof. repeat split; reflexivity. Qed.

End CalculatorFacts.

(* ================================================================== *)
(** * Properties: calendar arithmetic *)

Section Calendar.
Local Open Scope Z_scope.

Lemma msPerDay_val : msPerDay = 86400000.
Proof. reflexivity. Qed.

(** [setHours(0,0,0,0)] returns the instants of two local midnights, each
    a whole local day read back with the offset at that midnight: so
    [diffDays] is the difference of the two local calendar days, plus the
    whole days (rounded down) by which the offset shrank from the stored
    date's midnight to today's. *)
Lemma diffDays_local (c : Clock) (d : Z) :
  diffDays c d =
    toDateString c (now c) - toDateString c (parseDateOnly d)
    + (localOffset (zone c) (toDateString c (parseDateOnly d) * msPerDay)
       - localOffset (zone c) (toDateString c (now c) * msPerDay)) / msPerDay.
Proof.
  unfold diffDays, setHours0, UTC.
  set (a := toDateString c (now c)). set (b := toDateString c (parseDateOnly d)).
  set (oa := localOffset (zone c) (a * msPerDay)).
  set (ob := localOffset (zone c) (b * msPerDay)).
  replace (a * msPerDay - oa - (b * msPerDay - ob))
    with (ob - oa + (a - b) * msPerDay) by ring.
  rewrite Z.div_add by (rewrite msPerDay_val; lia). ring.
Qed.

Lemma steadyAt_spec (c : Clock) (tz t : Z) :
  steadyAt c tz t = true ->
  utcOffset (zone c) t = tz
  /\ localOffset (zone c) (toDateString c t * msPerDay) = tz.
Proof.
  unfold steadyAt. rewrite andb_true_iff, !Z.eqb_eq. exact (fun H => H).
Qed.

(** With no change of offset in between, [diffDays] is the difference of
    the local calendar days of now and of midnight UTC of the stored
    date. *)
Lemma diffDays_steady (c : Clock) (d tz : Z) :
  steady c d tz = true ->
  toDateString c (now c) = (now c + tz) / msPerDay
  /\ diffDays c d = (now c + tz) / msPerDay - (d * msPerDay + tz) / msPerDay.
Proof.
  unfold steady. rewrite andb_true_iff. intros [Hn Hd].
  apply steadyAt_spec in Hn, Hd. destruct Hn as [Hn1 Hn2], Hd as [Hd1 Hd2].
  rewrite diffDays_local, Hn2, Hd2, Z.sub_diag.
  unfold toDateString, LocalTime, parseDateOnly in *. rewrite Hn1, Hd1.
  rewrite Z.div_0_l by (rewrite msPerDay_val; lia). split; [reflexivity|ring].
Qed.

(** A zone that keeps one offset is steady at every date. *)
Lemma steady_fixedZone (t tz d : Z) :
  steady {| now := t; zone := fixedZone tz |} d tz = true.
Proof.
  unfold steady, steadyAt. cbn [zone fixedZone utcOffset localOffset].
  rewrite Z.eqb_refl. reflexivity.
Qed.

(** In the UTC zone the local day is the day of the date string. *)
Lemma diffDays_utc (c : Clock) (d : Z) :
  steady c d 0 = true -> diffDays c d = isoDate (now c) - d.
Proof.
  intros Hz. destruct (diffDays_steady c d 0 Hz) as [_ ->]. unfold isoDate.
  rewrite !Z.add_0_r, Z.div_mul; [reflexivity|rewrite msPerDay_val; lia].
Qed.

(** With no change of offset in between, [diffDays] is the difference of
    the UTC dates or one more. *)
Lemma diffDays_bounds (c : Clock) (d tz : Z) :
  steady c d tz = true -> offset_ok tz ->
  isoDate (now c) - d <= diffDays c d <= isoDate (now c) - d + 1.
Proof.
  unfold offset_ok. intros Hs Hz. destruct (diffDays_steady c d tz Hs) as [_ ->].
  unfold isoDate. rewrite msPerDay_val in *.
  Z.to_euclidean_division_equations. lia.
Qed.

End Calendar.

(* ================================================================== *)
(** * Properties: streak tracker and submission windows *)

Section TrackerFacts.
Local Open Scope Z_scope.

Lemma sameDate_true (l : option Z) (t : Z) :
  sameDate l t = true <-> l = Some t.
Proof.
  destruct l as [d|]; simpl.
  - rewrite Z.eqb_eq. split; [intros ->; reflexivity | intros [= ->]; reflexivity].
  - split; discriminate.
Qed.

Lemma calculateStreak_cases (c : Clock) (d cur : Z) :
  fst (calculateStreak c (Some d) cur) =
    if diffDays c d =? 0 then cur
    else if diffDays c d =? 1 then cur + 1 else 1.
Proof.
  unfold calculateStreak.
  destruct (diffDays c d =? 0); [reflexivity|].
  destruct (diffDays c d =? 1); reflexivity.
Qed.

Lemma newStreakData_fields (c : Clock) (sd : StreakData) :
  newStreakData c sd =
    {| currentStreak := fst (calculateStreak c (lastLogDate sd) (currentStreak sd));
       longestStreak :=
         Z.max (fst (calculateStreak c (lastLogDate sd) (currentStreak sd)))
               (longestStreak sd);
       lastLogDate := Some (isoDate (now c));
       totalPoints := totalPoints sd + 1 |}.
Proof.
  unfold newStreakData.
  destruct (calculateStreak c (lastLogDate sd) (currentStreak sd)); reflexivity.
Qed.

(** What a run of [handleDailySubmit] leaves in [streakData]. *)
Lemma handleDailySubmit_streak (c : Clock) (w1 w2 : WriteResult) (s : Dashboard) :
  streakData (fst (handleDailySubmit c w1 w2 s)) =
    if sameDate (lastLogDate (streakData s)) (isoDate (now c)) then streakData s
    else match w1, w2 with
         | WriteOk, WriteOk => newStreakData c (streakData s)
         | _, _ => streakData s
         end.
Proof.
  unfold handleDailySubmit.
  destruct (sameDate _ _); [reflexivity|].
  destruct w1, w2; reflexivity.
Qed.

Lemma newStreakData_inv (c : Clock) (sd : StreakData) :
  streak_inv sd -> streak_inv (newStreakData c sd).
Proof.
  unfold streak_inv. rewrite newStreakData_fields. simpl.
  destruct (lastLogDate sd) as [d|]; [|simpl; lia].
  rewrite calculateStreak_cases.
  destruct (diffDays c d =? 0); [lia|].
  destruct (diffDays c d =? 1); lia.
Qed.

Lemma reachable_inv (sd : StreakData) : reachable sd -> streak_inv sd.
Proof.
  induction 1 as [|c w1 w2 s _ IH].
  - exact I.
  - rewrite handleDailySubmit_streak.
    destruct (sameDate _ _); [exact IH|].
    destruct w1, w2; auto using newStreakData_inv.
Qed.

(** In the UTC zone, [recordLog] follows the calendar: a log on the day
    after the stored one extends the streak. *)
Lemma newStreakData_utc (c : Clock) (sd : StreakData) (d : Z) :
  steady c d 0 = true ->
  lastLogDate sd = Some d ->
  currentStreak (newStreakData c sd) =
    if isoDate (now c) - d =? 0 then currentStreak sd
    else if isoDate (now c) - d =? 1 then currentStreak sd + 1 else 1.
Proof.
  intros Hz Hd. rewrite newStreakData_fields. simpl.
  rewrite Hd, calculateStreak_cases, (diffDays_utc c d Hz). reflexivity.
Qed.

(** The parts of C2 that hold in every zone: after an accepted log the
    streak is 1 when no date was stored; [longestStreak] is the maximum of
    the new streak and the old longest; [totalPoints] grows by one;
    [lastLogDate] is today's date.  And with no change of offset in
    between, the streak is 1 when the stored date is more than one day
    before today's. *)
Lemma newStreakData_zone_independent (c : Clock) (sd : StreakData) :
  let sd' := newStreakData c sd in
  (lastLogDate sd = None -> currentStreak sd' = 1)
  /\ (forall d tz, lastLogDate sd = Some d ->
                   steady c d tz = true -> offset_ok tz ->
                   1 < isoDate (now c) - d ->
                   currentStreak sd' = 1)
  /\ longestStreak sd' = Z.max (currentStreak sd') (longestStreak sd)
  /\ totalPoints sd' = totalPoints sd + 1
  /\ lastLogDate sd' = Some (isoDate (now c)).
Proof.
  intros sd'. unfold sd'. rewrite newStreakData_fields. cbn.
  repeat split.
  - intros ->. reflexivity.
  - intros d tz Hd Hs Hz Hgap. rewrite Hd, calculateStreak_cases.
    pose proof (diffDays_bounds c d tz Hs Hz).
    destruct (Z.eqb_spec (diffDays c d) 0); [lia|].
    destruct (Z.eqb_spec (diffDays c d) 1); [lia|reflexivity].
Qed.

(** ** C2 *)

(** C2, evaluated where the code departs from it: in New York
    (UTC-05:00), three daily logs at 10:00 on the consecutive days
    2024-01-10, 2024-01-11 and 2024-01-12, starting from no history, are
    all accepted, store the dates of those three days, and leave
    [currentStreak] at 1, 1, 1 (not 1, 2, 3): the stored date is parsed as
    midnight UTC, which is the evening of the previous local day, so
    [diffDays] is 2 on the day after a log.  The same three logs in the
    UTC zone give 1, 2, 3. *)
Theorem recordLog_consecutive_days_new_york :
  let s0 := initialState (newYork10am jan10) newUser in
  let s1 := logOn (newYork10am jan10) s0 in
  let s2 := logOn (newYork10am (jan10 + 1)) s1 in
  let s3 := logOn (newYork10am (jan10 + 2)) s2 in
  let u1 := logOn (utc10am jan10) (initialState (utc10am jan10) newUser) in
  let u2 := logOn (utc10am (jan10 + 1)) u1 in
  let u3 := logOn (utc10am (jan10 + 2)) u2 in
  map (fun s => lastLogDate (streakData s)) [s1; s2; s3]
    = [Some jan10; Some (jan10 + 1); Some (jan10 + 2)]
  /\ diffDays (newYork10am (jan10 + 1)) jan10 = 2
  /\ map (fun s => currentStreak (streakData s)) [s1; s2; s3] = [1; 1; 1]
  /\ map (fun s => totalPoints (streakData s)) [s1; s2; s3] = [1; 2; 3]
  /\ map (fun s => currentStreak (streakData s)) [u1; u2; u3] = [1; 2; 3].
Proof. vm_compute. repeat split; reflexivity. Qed.

(** ** C3 *)

(** C3: when the stored [lastLogDate] is today's date, [handleDailySubmit]
    attempts no write, raises the "already logged today" alert (a message
    different from the failure one) and changes nothing but the [saving]
    flag, so [currentStreak], [longestStreak], [totalPoints] and
    [lastLogDate] are as before; and after a first call that was refused
    or committed, a second call on the same date is refused and leaves the
    streak record as the first call left it. *)
Theorem duplicate_daily_submission_refused :
  (forall (c : Clock) (w1 w2 : WriteResult) (s : Dashboard),
      lastLogDate (streakData s) = Some (isoDate (now c)) ->
      handleDailySubmit c w1 w2 s = (setSaving false s, [Alert alreadyLoggedMsg])
      /\ streakData (fst (handleDailySubmit c w1 w2 s)) = streakData s)
  /\ alreadyLoggedMsg <> dailyFailedMsg
  /\ (forall (c c' : Clock) (w1 w2 w1' w2' : WriteResult) (s : Dashboard),
         isoDate (now c') = isoDate (now c) ->
         lastLogDate (streakData s) = Some (isoDate (now c))
           \/ (w1 = WriteOk /\ w2 = WriteOk) ->
         let s1 := fst (handleDailySubmit c w1 w2 s) in
         handleDailySubmit c' w1' w2' s1 = (setSaving false s1, [Alert alreadyLoggedMsg])
         /\ streakData (fst (handleDailySubmit c' w1' w2' s1)) = streakData s1).
Proof.
  assert (H1 : forall c w1 w2 s,
             lastLogDate (streakData s) = Some (isoDate (now c)) ->
             handleDailySubmit c w1 w2 s = (setSaving false s, [Alert alreadyLoggedMsg])
             /\ streakData (fst (handleDailySubmit c w1 w2 s)) = streakData s).
  { intros c w1 w2 s H. apply sameDate_true in H.
    unfold handleDailySubmit. rewrite H. split; reflexivity. }
  split; [exact H1|]. split; [discriminate|].
  intros c c' w1 w2 w1' w2' s Hday Hfirst s1. apply H1.
  unfold s1. rewrite handleDailySubmit_streak, Hday.
  destruct (sameDate _ _) eqn:E.
  - apply sameDate_true in E. exact E.
  - destruct Hfirst as [H|[-> ->]].
    + apply sameDate_true in H. congruence.
    + rewrite newStreakData_fields. reflexivity.
Qed.

Lemma duplicate_daily_submission_refused_witness :
  let s := logOn (newYork10am jan10) (initialState (newYork10am jan10) newUser) in
  lastLogDate (streakData s) = Some (isoDate (now (newYork10am jan10)))
  /\ handleDailySubmit (newYork10am jan10) WriteOk WriteOk s
       = (setSaving false s, [Alert alreadyLoggedMsg]).
Proof.
  split; [reflexivity|].
  apply (proj1 duplicate_daily_submission_refused). reflexivity.
Defined.

(** ** C5 *)

(** C5: [isNewDay] is true exactly when [lastUpdated] of the daily record
    is absent or its local calendar date differs from today's (so 23:59 of
    one local day against 00:01 of the next is a new day, two minutes
    apart); [isNewWeek] is true exactly when [lastUpdated] of the weekly
    record is present and more than 7 x 24 hours before now, and is false
    when it is absent.  The 23:59 / 00:01 boundary is a new day in every
    zone, daylight saving included, whenever the local times of the two
    instants read so. *)
Theorem isNewPeriod_spec :
  (forall (c : Clock) (u : User),
      isNewDay c u = true <->
      (dailyLastUpdated u = None
       \/ exists t, dailyLastUpdated u = Some t
            /\ toDateString c t <> toDateString c (now c)))
  /\ (forall (tz day : Z) (u : User),
         isNewDay {| now := localTime tz day (60 * 1000); zone := fixedZone tz |}
           (withDaily u (localTime tz (day - 1) ((23 * 60 + 59) * 60 * 1000)))
         = true)
  /\ (forall (c : Clock) (u : User),
         isNewWeek c u = true <->
         exists t, weeklyLastUpdated u = Some t
           /\ now c - t > 7 * (24 * 60 * 60 * 1000))
  /\ (forall (c : Clock) (u : User),
         weeklyLastUpdated u = None -> isNewWeek c u = false)
  /\ (forall (c : Clock) (day t : Z) (u : User),
         LocalTime c t = (day - 1) * msPerDay + (23 * 60 + 59) * 60 * 1000 ->
         LocalTime c (now c) = day * msPerDay + 60 * 1000 ->
         isNewDay c (withDaily u t) = true).
Proof.
  split; [|split; [|split; [|split]]].
  - intros c u. unfold isNewDay. destruct (dailyLastUpdated u) as [t|].
    + rewrite negb_true_iff, Z.eqb_neq. split.
      * intros H. right. exists t. auto.
      * intros [H|[t' [[= <-] Ht]]]; [discriminate|exact Ht].
    + split; auto.
  - intros tz day u.
    unfold isNewDay, dailyLastUpdated, withDaily, toDateString, LocalTime,
      localTime.
    cbn [dailyHygieneData dh_lastUpdated now zone fixedZone utcOffset].
    rewrite negb_true_iff, Z.eqb_neq, msPerDay_val.
    Z.to_euclidean_division_equations. lia.
  - intros c u. unfold isNewWeek. destruct (weeklyLastUpdated u) as [t|].
    + rewrite Z.ltb_lt. split.
      * intros H. exists t. split; [reflexivity|lia].
      * intros [t' [[= <-] H]]. lia.
    + split; [discriminate|intros [t [H _]]; discriminate].
  - intros c u. unfold isNewWeek. intros ->. reflexivity.
  - intros c day t u Ht Hn.
    unfold isNewDay, dailyLastUpdated, withDaily, toDateString.
    cbn [dailyHygieneData dh_lastUpdated].
    rewrite Ht, Hn, negb_true_iff, Z.eqb_neq, msPerDay_val.
    Z.to_euclidean_division_equations. lia.
Qed.

Lemma isNewPeriod_spec_witness :
  isNewDay (newYork10am jan10) newUser = true
  /\ isNewWeek (newYork10am jan10) newUser = false
  /\ isNewDay (newYorkAt (mar10 + 1) (4 * 60 * 60 * 1000 + 60 * 1000))
       (withDaily newUser ((mar10 + 1) * msPerDay + 4 * 60 * 60 * 1000 - 60 * 1000))
     = true.
Proof.
  destruct isNewPeriod_spec as (Hd & _ & _ & Hw & Hb).
  split; [apply Hd; left; reflexivity|]. split; [apply Hw; reflexivity|].
  apply (Hb _ (mar10 + 1)); reflexivity.
Defined.

(** ** C6 *)

(** C6: in every zone [longestStreak] never decreases over a run of
    [handleDailySubmit], and after an accepted log (not a duplicate, both
    writes succeeded) on a streak record the tracker can hold,
    [currentStreak] is at least 1 and at most [longestStreak].  The reset
    to exactly 1 when the stored date is more than one day before today's
    holds when no change of offset lies in between, and fails across one.
    In New York a log on Saturday 2024-03-09 at 21:00 is stored under the
    UTC date 2024-03-10; the next log, on Monday 2024-03-11 at 22:00
    (2024-03-12 in UTC), comes two days later in local time and in UTC
    alike, with no log on the Sunday on which the clocks went forward.
    The two local midnights are 47 hours apart, so [diffDays] is 1 and the
    streak is extended to 2. *)
Theorem streak_invariants (c : Clock) (w1 w2 : WriteResult) (s : Dashboard) :
  reachable (streakData s) ->
  let sd := streakData s in
  let sd' := streakData (fst (handleDailySubmit c w1 w2 s)) in
  longestStreak sd <= longestStreak sd'
  /\ (sameDate (lastLogDate sd) (isoDate (now c)) = false ->
      w1 = WriteOk -> w2 = WriteOk ->
      1 <= currentStreak sd'
      /\ currentStreak sd' <= longestStreak sd'
      /\ (forall d tz, lastLogDate sd = Some d ->
                       steady c d tz = true -> offset_ok tz ->
                       1 < isoDate (now c) - d ->
                       currentStreak sd' = 1))
  /\ (let s1 := logOn saturdayEvening (initialState saturdayEvening newUser) in
      let s2 := logOn mondayEvening s1 in
      streakData s1 =
        {| currentStreak := 1; longestStreak := 1; lastLogDate := Some mar10;
           totalPoints := 1 |}
      /\ toDateString mondayEvening (now saturdayEvening) = mar10 - 1
      /\ toDateString mondayEvening (now mondayEvening) = mar10 + 1
      /\ isoDate (now mondayEvening) = mar10 + 2
      /\ setHours0 mondayEvening (now mondayEvening)
           - setHours0 mondayEvening (parseDateOnly mar10)
         = 47 * (60 * 60 * 1000)
      /\ diffDays mondayEvening mar10 = 1
      /\ streakData s2 =
           {| currentStreak := 2; longestStreak := 2;
              lastLogDate := Some (mar10 + 2); totalPoints := 2 |}).
Proof.
  intros Hr sd sd'. apply reachable_inv in Hr. fold sd in Hr.
  unfold sd'. rewrite handleDailySubmit_streak. fold sd. split; [|split].
  - destruct (sameDate _ _); [lia|].
    destruct w1, w2; try lia. rewrite newStreakData_fields. simpl. lia.
  - intros -> -> ->.
    pose proof (newStreakData_inv c sd Hr) as Hinv.
    rewrite newStreakData_fields in *. unfold streak_inv in Hinv. simpl in *.
    repeat split; [exact Hinv|lia|].
    intros d tz Hd Hs Hz Hgap. rewrite Hd, calculateStreak_cases.
    pose proof (diffDays_bounds c d tz Hs Hz).
    destruct (Z.eqb_spec (diffDays c d) 0); [lia|].
    destruct (Z.eqb_spec (diffDays c d) 1); [lia|reflexivity].
  - vm_compute. repeat split; reflexivity.
Qed.

Lemma streak_invariants_witness :
  let c := newYork10am (jan10 + 5) in
  let s := logOn (newYork10am jan10) (initialState (newYork10am jan10) newUser) in
  let sd' := streakData (fst (handleDailySubmit c WriteOk WriteOk s)) in
  longestStreak (streakData s) <= longestStreak sd' /\ currentStreak sd' = 1.
Proof.
  intros c s sd'.
  assert (Hr : reachable (streakData s)).
  { apply reachable_submit, reachable_initial. }
  destruct (streak_invariants c WriteOk WriteOk s Hr) as (Hl & Hs & _).
  split; [exact Hl|].
  destruct (Hs eq_refl eq_refl eq_refl) as (_ & _ & Hgap).
  apply (Hgap jan10 est); [reflexivity|reflexivity|vm_compute; split; reflexivity
                          |vm_compute; reflexivity].
Defined.

(** ** C8 *)

(** C8: when a write of a submission fails (the first one, or the second
    after the first succeeded), the handler leaves every state variable
    and the user object as they were (only [saving] is reset to false),
    does not call [onUpdateUser], and raises the failure alert; so a state
    that differs from the old one in more than [saving] is only ever
    committed after both writes succeeded. *)
Theorem failed_write_commits_nothing (c : Clock) (w1 w2 : WriteResult) (s : Dashboard) :
  (w1 = WriteError \/ w2 = WriteError ->
     fst (handleDailySubmit c w1 w2 s) = setSaving false s
     /\ (forall u, ~ In (OnUpdateUser u) (snd (handleDailySubmit c w1 w2 s)))
     /\ (sameDate (lastLogDate (streakData s)) (isoDate (now c)) = false ->
         In (Alert dailyFailedMsg) (snd (handleDailySubmit c w1 w2 s)))
     /\ fst (handleWeeklySubmit c w1 w2 s) = setSaving false s
     /\ (forall u, ~ In (OnUpdateUser u) (snd (handleWeeklySubmit c w1 w2 s)))
     /\ In (Alert weeklyFailedMsg) (snd (handleWeeklySubmit c w1 w2 s)))
  /\ (fst (handleDailySubmit c w1 w2 s) <> setSaving false s ->
      w1 = WriteOk /\ w2 = WriteOk)
  /\ (fst (handleWeeklySubmit c w1 w2 s) <> setSaving false s ->
      w1 = WriteOk /\ w2 = WriteOk).
Proof.
  unfold handleDailySubmit, handleWeeklySubmit.
  destruct (sameDate _ _); destruct w1, w2; cbn [fst snd];
    (split; [intros [H|H]; try discriminate H; repeat split;
             try (intros u [E|[E|[E|[E|[]]]]]; discriminate E);
             try (intros u [E|[E|[E|[]]]]; discriminate E);
             try (intros u [E|[]]; discriminate E);
             try (intros; simpl; tauto); try discriminate
            | split; intros H; try (exfalso; apply H; reflexivity); auto]).
Qed.

Lemma failed_write_commits_nothing_witness :
  let c := newYork10am jan10 in
  let s := initialState c newUser in
  fst (handleDailySubmit c WriteOk WriteError s) = setSaving false s
  /\ In (Alert dailyFailedMsg) (snd (handleDailySubmit c WriteOk WriteError s))
  /\ fst (handleWeeklySubmit c WriteOk WriteError s) = setSaving false s.
Proof.
  intros c s.
  destruct (proj1 (failed_write_commits_nothing c WriteOk WriteError s) (or_intror eq_refl))
    as (H1 & _ & H3 & H4 & _).
  split; [exact H1|]. split; [apply H3; reflexivity|exact H4].
Defined.

(** ** C9 *)

(** C9: after [handleDailyInputChange] the daily flag is false (so a flag
    that was true is reset) and the weekly flag is as before; after
    [handleWeeklyInputChange] the weekly flag is false and the daily flag
    is as before; whatever the field and the value. *)
Theorem edit_resets_own_flag_only (s : Dashboard) :
  (forall (f : DailyField) (v : float),
      isDailySubmitted (handleDailyInputChange f v s) = false
      /\ isWeeklySubmitted (handleDailyInputChange f v s) = isWeeklySubmitted s)
  /\ (forall (f : WeeklyField) (v : float),
         isWeeklySubmitted (handleWeeklyInputChange f v s) = false
         /\ isDailySubmitted (handleWeeklyInputChange f v s) = isDailySubmitted s).
Proof.
  split; intros f v; simpl; split; try reflexivity.
  - destruct (isDailySubmitted s); reflexivity.
  - destruct (isWeeklySubmitted s); reflexivity.
Qed.

(** ** C10 *)

(** C10: what [calculateStreak] does when today's date is before the
    stored one, with no change of offset in between.  In the UTC zone, and
    in every zone when today is more than one day before the stored date,
    the streak is reset to 1.  With today one day before the stored date
    it is not, in the zones off UTC: west of UTC midnight UTC of the
    stored date falls on the previous local day, so while the local date
    of now is its UTC date [diffDays] is 0 and the streak is kept as on
    the same day; east of UTC the same happens once the local date of now
    has moved on to the stored date.  In New York, after a log on
    2024-01-10 at 20:00 (stored under the UTC date 2024-01-11), a log with
    the clock set back to 18:00 (2024-01-10 in UTC) is accepted, keeps the
    streak and earns a second point. *)
Theorem negative_gap_of_one_day (c : Clock) (d cur tz : Z) :
  steady c d tz = true -> offset_ok tz ->
  (tz < 0 -> isoDate (now c) = d - 1 ->
   calculateStreak c (Some d) cur =
     if toDateString c (now c) =? d - 1 then (cur, true) else (1, false))
  /\ (0 < tz -> isoDate (now c) = d - 1 ->
      calculateStreak c (Some d) cur =
        if toDateString c (now c) =? d then (cur, true) else (1, false))
  /\ (tz = 0 -> isoDate (now c) < d ->
      calculateStreak c (Some d) cur = (1, false))
  /\ (isoDate (now c) < d - 1 ->
      calculateStreak c (Some d) cur = (1, false))
  /\ (let s1 := logOn eveningLog (initialState eveningLog newUser) in
      let s2 := logOn clockSetBack s1 in
      streakData s1 =
        {| currentStreak := 1; longestStreak := 1;
           lastLogDate := Some (jan10 + 1); totalPoints := 1 |}
      /\ isoDate (now clockSetBack) = jan10
      /\ diffDays clockSetBack (jan10 + 1) = 0
      /\ calculateStreak clockSetBack (Some (jan10 + 1)) 7 = (7, true)
      /\ streakData s2 =
           {| currentStreak := 1; longestStreak := 1;
              lastLogDate := Some jan10; totalPoints := 2 |}).
Proof.
  intros Hs Hz. destruct (diffDays_steady c d tz Hs) as [Ht Hd].
  pose proof (diffDays_bounds c d tz Hs Hz) as Hb.
  unfold offset_ok in Hz. unfold calculateStreak.
  split; [|split; [|split; [|split]]].
  - intros Hw Hday. rewrite Ht.
    assert (Hl : (d * msPerDay + tz) / msPerDay = d - 1).
    { rewrite msPerDay_val in *. Z.to_euclidean_division_equations. lia. }
    rewrite Hd, Hl.
    assert (Hn : (now c + tz) / msPerDay = d - 1
                 \/ (now c + tz) / msPerDay = d - 2).
    { unfold isoDate in Hday. rewrite msPerDay_val in *.
      Z.to_euclidean_division_equations. lia. }
    destruct Hn as [-> | ->].
    + rewrite Z.sub_diag, !Z.eqb_refl. reflexivity.
    + replace (d - 2 - (d - 1)) with (-1) by lia.
      destruct (Z.eqb_spec (d - 2) (d - 1)); [lia|reflexivity].
  - intros He Hday. rewrite Ht.
    assert (Hl : (d * msPerDay + tz) / msPerDay = d).
    { rewrite msPerDay_val in *. Z.to_euclidean_division_equations. lia. }
    rewrite Hd, Hl.
    assert (Hn : (now c + tz) / msPerDay = d
                 \/ (now c + tz) / msPerDay = d - 1).
    { unfold isoDate in Hday. rewrite msPerDay_val in *.
      Z.to_euclidean_division_equations. lia. }
    destruct Hn as [-> | ->].
    + rewrite Z.sub_diag, !Z.eqb_refl. reflexivity.
    + replace (d - 1 - d) with (-1) by lia.
      destruct (Z.eqb_spec (d - 1) d); [lia|reflexivity].
  - intros -> Hlt. rewrite (diffDays_utc c d Hs).
    destruct (Z.eqb_spec (isoDate (now c) - d) 0); [lia|].
    destruct (Z.eqb_spec (isoDate (now c) - d) 1); [lia|reflexivity].
  - intros Hlt.
    destruct (Z.eqb_spec (diffDays c d) 0); [lia|].
    destruct (Z.eqb_spec (diffDays c d) 1); [lia|reflexivity].
  - vm_compute. repeat split; reflexivity.
Qed.

Lemma negative_gap_of_one_day_witness :
  isoDate (now clockSetBack) = jan10 + 1 - 1
  /\ calculateStreak clockSetBack (Some (jan10 + 1)) 7 = (7, true)
  /\ calculateStreak tokyoBeforeDawn (Some (jan10 + 1)) 7 = (7, true)
  /\ calculateStreak (utc10am jan10) (Some (jan10 + 1)) 7 = (1, false).
Proof.
  split; [reflexivity|]. split; [|split].
  - apply (proj1 (negative_gap_of_one_day clockSetBack (jan10 + 1) 7 est
                    eq_refl ltac:(vm_compute; split; reflexivity)));
      [vm_compute|]; reflexivity.
  - apply (proj1 (proj2 (negative_gap_of_one_day tokyoBeforeDawn (jan10 + 1) 7 jst
                           eq_refl ltac:(vm_compute; split; reflexivity))));
      [vm_compute|]; reflexivity.
  - apply (proj1 (proj2 (proj2
             (negative_gap_of_one_day (utc10am jan10) (jan10 + 1) 7 0
                eq_refl ltac:(vm_compute; split; reflexivity)))));
      [|vm_compute]; reflexivity.
Defined.

End TrackerFacts.

(* ================================================================== *)
(** * Further properties: mounting and the submission windows *)

Import Lifecycle Display.

Section LifecycleFacts.
Local Open Scope Z_scope.

Lemma weeklyOf_combine (d : DailyHygieneMetrics) (w : WeeklyUsageMetrics) :
  weeklyOf (combine d w) = w.
Proof. destruct w; reflexivity. Qed.

Lemma isoDate_of_day (day t : Z) :
  0 <= t < msPerDay -> isoDate (day * msPerDay + t) = day.
Proof.
  intros Ht. unfold isoDate. rewrite msPerDay_val in *.
  Z.to_euclidean_division_equations. lia.
Qed.

(** X1: mounting computes the same flags, daily inputs and streak as the
    [useState] initialisers alone; the effect only replaces the weekly
    inputs by the stored ones as they are (the initialisers replace a
    stored 0 by the default), or leaves the defaults when nothing is
    stored. *)
Theorem mount_agrees_with_initialisers (c : Clock) (u : User) :
  let s0 := initialState c u in
  let s := mount c u in
  user s = u
  /\ dailyInputs s = dailyInputs s0
  /\ isDailySubmitted s = isDailySubmitted s0
  /\ isWeeklySubmitted s = isWeeklySubmitted s0
  /\ streakData s = streakData s0
  /\ weeklyInputs s =
       match dashboardData u with
       | Some d => weeklyOf (dd_inputs d)
       | None => Calculator.DEFAULT_WEEKLY_INPUTS
       end.
Proof.
  unfold mount, syncFromUser, initialState, isNewDay, isNewWeek,
    dailyLastUpdated, weeklyLastUpdated.
  cbn [user dailyInputs isDailySubmitted isWeeklySubmitted streakData
       weeklyInputs fst snd].
  repeat split.
  - destruct (dailyHygieneData u) as [d|]; reflexivity.
  - destruct (dailyHygieneData u) as [d|]; [|reflexivity]. cbn [fst snd].
    destruct (dh_lastUpdated d) as [t|]; [|reflexivity].
    destruct (_ =? _); reflexivity.
  - destruct (dashboardData u) as [d|]; [|reflexivity]. cbn [fst snd].
    destruct (dd_lastUpdated d) as [t|]; [|reflexivity].
    rewrite Z.leb_antisym. destruct (_ <? _); reflexivity.
  - destruct (u_streakData u); reflexivity.
  - destruct (dashboardData u) as [d|]; reflexivity.
Qed.

(** X2: after an accepted daily log, mounting again from the updated user
    shows the inputs that were logged and the streak that was committed,
    and shows the day as logged exactly when the local calendar date is
    still that of the log; it is then exactly not a new day. *)
Theorem remount_after_daily_log (c c' : Clock) (s : Dashboard) :
  sameDate (lastLogDate (streakData s)) (isoDate (now c)) = false ->
  let s' := fst (handleDailySubmit c WriteOk WriteOk s) in
  let m := mount c' (user s') in
  dailyInputs m = dailyInputs s
  /\ streakData m = streakData s'
  /\ isDailySubmitted m = (toDateString c' (now c) =? toDateString c' (now c'))
  /\ isNewDay c' (user s') = negb (isDailySubmitted m).
Proof.
  intros Hdup. unfold handleDailySubmit. rewrite Hdup. cbn [fst].
  unfold mount, syncFromUser, initialState, isNewDay, dailyLastUpdated.
  cbn [user dailyInputs isDailySubmitted streakData dailyHygieneData
       dh_lastUpdated dh_isSubmitted dh_inputs u_streakData fst snd].
  repeat split; rewrite andb_true_r; reflexivity.
Qed.

Lemma remount_after_daily_log_witness :
  let s := initialState (newYork10am jan10) newUser in
  isDailySubmitted
    (mount (newYork10am jan10) (user (logOn (newYork10am jan10) s))) = true
  /\ isDailySubmitted
       (mount (newYork10am (jan10 + 1)) (user (logOn (newYork10am jan10) s)))
     = false.
Proof.
  intros s. unfold logOn. split.
  - destruct (remount_after_daily_log (newYork10am jan10) (newYork10am jan10) s
                eq_refl) as (_ & _ & H & _).
    rewrite H. reflexivity.
  - destruct (remount_after_daily_log (newYork10am jan10)
                (newYork10am (jan10 + 1)) s eq_refl) as (_ & _ & H & _).
    rewrite H. reflexivity.
Defined.

(** X3: after a committed weekly submission, mounting again from the
    updated user shows the weekly inputs that were submitted, shows the
    week as submitted exactly while at most 7 x 24 hours have passed, and
    reports a new week exactly afterwards; the published monthly usage is
    four times the weekly total of the submitted state, rounded. *)
Theorem remount_after_weekly_log (c c' : Clock) (s : Dashboard) :
  let s' := fst (handleWeeklySubmit c WriteOk WriteOk s) in
  let m := mount c' (user s') in
  weeklyInputs m = weeklyInputs s
  /\ isWeeklySubmitted m = (now c' - now c <=? 7 * (24 * 60 * 60 * 1000))
  /\ isNewWeek c' (user s') = negb (isWeeklySubmitted m)
  /\ monthlyUsage (user m) = Math.round (grandTotal (statsOf s) * 4)%float.
Proof.
  cbv zeta. pose proof (mount_agrees_with_initialisers c'
                          (user (fst (handleWeeklySubmit c WriteOk WriteOk s)))) as H.
  cbv zeta in H. destruct H as (Hu & _ & _ & Hw & _ & Hi).
  rewrite Hw, Hi, Hu.
  unfold handleWeeklySubmit, initialState, isNewWeek, weeklyLastUpdated.
  cbn [fst user dashboardData dd_inputs dd_lastUpdated dd_isSubmitted
       isWeeklySubmitted monthlyUsage].
  repeat split.
  - apply weeklyOf_combine.
  - rewrite Z.leb_antisym.
    change (7 * 24 * 60 * 60 * 1000) with (7 * (24 * 60 * 60 * 1000)).
    destruct (_ <? _); reflexivity.
  - destruct (_ <? _); reflexivity.
Qed.



(** X5: on every streak record the tracker can hold, the counters are
    ordered: [0 <= currentStreak <= longestStreak <= totalPoints]; and no
    date is stored exactly when no point was ever earned. *)
Theorem streak_counters_ordered (sd : StreakData) :
  reachable sd ->
  0 <= currentStreak sd <= longestStreak sd
  /\ longestStreak sd <= totalPoints sd
  /\ (lastLogDate sd = None <-> totalPoints sd = 0).
Proof.
  induction 1 as [|c w1 w2 s _ IH].
  - cbn. repeat split; lia.
  - rewrite handleDailySubmit_streak.
    destruct (sameDate _ _); [exact IH|].
    destruct w1, w2; try exact IH.
    rewrite newStreakData_fields. cbn.
    destruct IH as (Hc & Hl & Hn).
    destruct (lastLogDate (streakData s)) as [d|].
    + rewrite calculateStreak_cases.
      destruct (diffDays c d =? 0); [|destruct (diffDays c d =? 1)];
        (repeat split; try lia; try discriminate).
    + cbn. repeat split; try lia; try discriminate.
Qed.

Lemma streak_counters_ordered_witness :
  let sd := streakData (logOn (newYork10am jan10)
                          (initialState (newYork10am jan10) newUser)) in
  longestStreak sd <= totalPoints sd.
Proof.
  intros sd.
  apply (streak_counters_ordered sd
           (reachable_submit (newYork10am jan10) WriteOk WriteOk
              (initialState (newYork10am jan10) newUser) reachable_initial)).
Defined.

Lemma StreakData_eq (a b d p a' b' d' p' : Z) :
  a = a' -> b = b' -> d = d' -> p = p' ->
  {| currentStreak := a; longestStreak := b; lastLogDate := Some d;
     totalPoints := p |}
  = {| currentStreak := a'; longestStreak := b'; lastLogDate := Some d';
       totalPoints := p' |}.
Proof. intros -> -> -> ->. reflexivity. Qed.

Lemma logRun_consecutiveUtc_step (times : list Z) :
  forall (day k : Z) (s : Dashboard),
    Forall (fun t => 0 <= t < msPerDay) times ->
    streakData s =
      {| currentStreak := k; longestStreak := k;
         lastLogDate := Some (day - 1); totalPoints := k |} ->
    streakData (logRun (consecutiveUtc day times) s) =
      {| currentStreak := k + Z.of_nat (List.length times);
         longestStreak := k + Z.of_nat (List.length times);
         lastLogDate := Some (day + Z.of_nat (List.length times) - 1);
         totalPoints := k + Z.of_nat (List.length times) |}.
Proof.
  induction times as [|t ts IH]; intros day k s Hts Hs.
  - cbn. rewrite Hs. apply StreakData_eq; lia.
  - inversion Hts as [|? ? Ht Hts']; subst.
    cbn [consecutiveUtc logRun fold_left]. fold (logRun (consecutiveUtc (day + 1) ts)).
    set (c := {| now := day * msPerDay + t; zone := fixedZone 0 |}).
    assert (Hday : isoDate (now c) = day) by (apply isoDate_of_day; exact Ht).
    rewrite (IH (day + 1) (k + 1)); [|exact Hts'|].
    + cbn [List.length]. rewrite Nat2Z.inj_succ. apply StreakData_eq; lia.
    + rewrite handleDailySubmit_streak, Hs. cbn [lastLogDate sameDate].
      rewrite Hday. destruct (Z.eqb_spec (day - 1) day); [lia|].
      rewrite newStreakData_fields. cbn [lastLogDate currentStreak
        longestStreak totalPoints].
      rewrite calculateStreak_cases, (diffDays_utc c (day - 1) (steady_fixedZone _ 0 _)), Hday.
      replace (day - (day - 1)) with 1 by lia. cbn.
      apply StreakData_eq; lia.
Qed.

(** X6: in the UTC zone, daily logs on any number [n >= 1] of consecutive
    days, at any time of day, starting from no history, all succeed and
    leave [currentStreak = longestStreak = totalPoints = n] and the date
    of the last day. *)
Theorem consecutive_utc_days_build_streak (day t : Z) (times : list Z) (s : Dashboard) :
  Forall (fun t => 0 <= t < msPerDay) (t :: times) ->
  streakData s = initialStreak ->
  let n := Z.of_nat (List.length (t :: times)) in
  streakData (logRun (consecutiveUtc day (t :: times)) s) =
    {| currentStreak := n; longestStreak := n;
       lastLogDate := Some (day + n - 1); totalPoints := n |}.
Proof.
  intros Hts Hs n. inversion Hts as [|? ? Ht Hts']; subst.
  cbn [consecutiveUtc logRun fold_left]. fold (logRun (consecutiveUtc (day + 1) times)).
  set (c := {| now := day * msPerDay + t; zone := fixedZone 0 |}).
  assert (Hday : isoDate (now c) = day) by (apply isoDate_of_day; exact Ht).
  rewrite (logRun_consecutiveUtc_step times (day + 1) 1); [|exact Hts'|].
  - unfold n. cbn [List.length]. rewrite Nat2Z.inj_succ. apply StreakData_eq; lia.
  - rewrite handleDailySubmit_streak, Hs. cbn [lastLogDate initialStreak sameDate].
    rewrite newStreakData_fields, Hday. cbn. apply StreakData_eq; lia.
Qed.

Lemma consecutive_utc_days_build_streak_witness :
  streakData (logRun (consecutiveUtc jan10 [0; 43200000; 86399999; 5])
                (initialState (utc10am jan10) newUser))
  = {| currentStreak := 4; longestStreak := 4;
       lastLogDate := Some (jan10 + 3); totalPoints := 4 |}.
Proof.
  apply (consecutive_utc_days_build_streak jan10 0 [43200000; 86399999; 5]
           (initialState (utc10am jan10) newUser)).
  - repeat constructor; vm_compute; reflexivity || discriminate.
  - reflexivity.
Defined.

(** X7: [diffDays] is the difference of the local calendar dates of now
    and of midnight UTC of the stored date, and one less than that when
    the clocks went forward between the two midnights.  With no change of
    offset in between it is the local date of now minus the stored date
    in a zone at or east of UTC, and one more than that in a zone west of
    UTC; so on the day after the stored date, at an instant whose local
    and UTC dates agree, [calculateStreak] extends the streak at or east
    of UTC and resets it to 1 west of UTC. *)
Theorem diffDays_by_zone (c : Clock) (d cur : Z) :
  let today := toDateString c (now c) in
  let lastDay := toDateString c (parseDateOnly d) in
  let forward :=
    localOffset (zone c) (today * msPerDay)
    - localOffset (zone c) (lastDay * msPerDay) in
  (- msPerDay < forward <= msPerDay ->
   diffDays c d = today - lastDay - (if 0 <? forward then 1 else 0))
  /\ (forall tz, steady c d tz = true -> offset_ok tz ->
        diffDays c d = today - d + (if tz <? 0 then 1 else 0)
        /\ (today = isoDate (now c) -> isoDate (now c) = d + 1 ->
            calculateStreak c (Some d) cur =
              if tz <? 0 then (1, false) else (cur + 1, true))).
Proof.
  intros today lastDay forward. split.
  - intros Hf. rewrite diffDays_local. fold today lastDay.
    replace (localOffset (zone c) (lastDay * msPerDay)
             - localOffset (zone c) (today * msPerDay)) with (- forward)
      by (unfold forward; ring).
    rewrite msPerDay_val in *.
    destruct (Z.ltb_spec 0 forward);
      Z.to_euclidean_division_equations; lia.
  - intros tz Hs Hz. destruct (diffDays_steady c d tz Hs) as [Ht Hd].
    assert (H : diffDays c d = today - d + (if tz <? 0 then 1 else 0)).
    { unfold today. rewrite Hd, Ht. unfold offset_ok in Hz.
      rewrite msPerDay_val in *.
      destruct (Z.ltb_spec tz 0); Z.to_euclidean_division_equations; lia. }
    split; [exact H|]. intros Hl Hday. unfold calculateStreak.
    rewrite H, Hl, Hday. destruct (tz <? 0).
    + replace (d + 1 - d + 1) with 2 by lia. reflexivity.
    + replace (d + 1 - d + 0) with 1 by lia. reflexivity.
Qed.

Lemma diffDays_by_zone_witness :
  diffDays mondayEvening mar10 = 1
  /\ calculateStreak (newYork10am (jan10 + 1)) (Some jan10) 5 = (1, false)
  /\ calculateStreak (utc10am (jan10 + 1)) (Some jan10) 5 = (6, true).
Proof.
  split; [|split].
  - rewrite (proj1 (diffDays_by_zone mondayEvening mar10 0));
      vm_compute; [reflexivity|split; [reflexivity|discriminate]].
  - apply (proj2 (diffDays_by_zone (newYork10am (jan10 + 1)) jan10 5) est
             eq_refl ltac:(vm_compute; split; reflexivity));
      reflexivity.
  - apply (proj2 (diffDays_by_zone (utc10am (jan10 + 1)) jan10 5) 0
             eq_refl ltac:(vm_compute; split; reflexivity));
      reflexivity.
Defined.

End LifecycleFacts.

(* ================================================================== *)
(** * Further properties: the calculation engine and its display *)

Section DisplayFacts.
Import WATER_METRICS.
Local Open Scope string_scope.
Local Open Scope float_scope.

(** X9: editing a daily input leaves every weekly category and the
    virtual total as they were; editing a weekly input leaves the four
    hygiene categories as they were. *)
Theorem edits_change_only_their_categories (s : Dashboard) (v : float) :
  (forall f : DailyField,
      let b := breakdown (statsOf s) in
      let b' := breakdown (statsOf (handleDailyInputChange f v s)) in
      virtualTotal (statsOf (handleDailyInputChange f v s)) = virtualTotal (statsOf s)
      /\ (Laundry b', Dishes b', Garden b') = (Laundry b, Dishes b, Garden b)
      /\ (Clothing b', Diet b', Transport b', AI_Usage b', Recycling b', Compost b')
         = (Clothing b, Diet b, Transport b, AI_Usage b, Recycling b, Compost b))
  /\ (forall f : WeeklyField,
         let b := breakdown (statsOf s) in
         let b' := breakdown (statsOf (handleWeeklyInputChange f v s)) in
         (Showers b', Baths b', Toilet b', Faucets b')
         = (Showers b, Baths b, Toilet b, Faucets b)).
Proof.
  split; intros f; destruct f; repeat split; reflexivity.
Qed.

(** X13: the "direct" and "virtual" views split the "all" view: a row is
    rendered in the direct view exactly when its category is one of the
    seven direct ones and it is rendered in the all view, and in the
    virtual view exactly when it is not direct and rendered in the all
    view; a row is absent from the all view exactly when its value is
    below 1 in magnitude; and the direct categories are, in order, the
    first seven entries of the breakdown. *)
Theorem category_views_partition (grandTotal : float) (entry : string * float) :
  renderRow Direct grandTotal entry
    = (if isDirect (fst entry) then renderRow All grandTotal entry else None)
  /\ renderRow Virtual grandTotal entry
     = (if isDirect (fst entry) then None else renderRow All grandTotal entry)
  /\ (renderRow All grandTotal entry = None <-> (abs (snd entry) <? 1) = true)
  /\ (forall b : Breakdown,
         map fst (filter (fun e => isDirect (fst e)) (entries b))
         = directCategories
         /\ map fst (filter (fun e => isDirect (fst e)) (entries b))
            = firstn 7 (map fst (entries b))).
Proof.
  destruct entry as [category val]. cbn [fst snd]. unfold renderRow.
  split; [|split; [|split]].
  - destruct (isDirect category); reflexivity.
  - destruct (isDirect category); reflexivity.
  - destruct (isDirect category); destruct (abs val <? 1);
      split; intros H; try reflexivity; discriminate H.
  - intros b. split; reflexivity.
Qed.

Lemma category_views_partition_witness :
  renderRow All 5000 ("Diet", 0.5) = None
  /\ renderRow Virtual 5000 ("Showers", 117.6) = None.
Proof.
  split.
  - apply (proj1 (proj2 (proj2 (category_views_partition 5000 ("Diet", 0.5))))).
    reflexivity.
  - rewrite (proj1 (proj2 (category_views_partition 5000 ("Showers", 117.6)))).
    reflexivity.
Defined.

Lemma SFcompare_antisym (x y : spec_float) :
  SFcompare y x = option_map CompOpp (SFcompare x y).
Proof.
  destruct x as [s|s| |s m e], y as [s'|s'| |s' m' e']; cbn;
    try destruct s; try destruct s'; try reflexivity;
    rewrite (Z.compare_antisym e' e); destruct (e' ?= e)%Z; cbn;
    rewrite ?Pos.compare_cont_antisym; cbn; reflexivity.
Qed.

Lemma ltb_false_leb (a b : float) :
  is_nan a = false -> is_nan b = false -> (a <? b) = false -> (b <=? a) = true.
Proof.
  rewrite !is_nan_Prim2SF, !negb_false_iff, ltb_spec, leb_spec.
  unfold SFltb, SFleb. rewrite (SFcompare_antisym (Prim2SF a) (Prim2SF b)).
  destruct (Prim2SF a) as [s|s| |s m e], (Prim2SF b) as [s'|s'| |s' m' e'];
    try discriminate; intros _ _;
    destruct (SFcompare _ _) as [[]|] eqn:E; cbn; try congruence;
    cbn in E; try destruct s; try destruct s'; discriminate E.
Qed.

(** A number that is not NaN is displayed between 1 and 100. *)
Lemma display_clamp (p : float) :
  is_nan p = false ->
  (1 <=? Math.min 100 (Math.max p 1)) = true
  /\ (Math.min 100 (Math.max p 1) <=? 100) = true.
Proof.
  intros Hn.
  assert (Hmax : Math.max p 1 = 1 \/ (Math.max p 1 = p /\ (1 <? p) = true)).
  { unfold Math.max. rewrite Hn. change (is_nan 1) with false. cbn [orb].
    destruct (p <? 1) eqn:Hlt; [left; reflexivity|].
    destruct (1 <? p) eqn:Hgt; [right; split; reflexivity|].
    (* neither below nor above 1: it is 1 *)
    assert (Hp : p = 1).
    { apply Prim2SF_inj. rewrite ltb_spec in Hlt, Hgt.
      rewrite is_nan_Prim2SF in Hn.
      change (Prim2SF 1) with (S754_finite false 4503599627370496 (-52)) in *.
      unfold SFltb, SFcompare in Hlt, Hgt.
      destruct (Prim2SF p) as [s|s| |s m e]; try discriminate;
        try (destruct s; discriminate).
      destruct s; [discriminate|].
      set (M := 4503599627370496%positive) in *.
      destruct (Z.compare_spec e (-52)) as [He|He|He]; try discriminate Hlt.
      - subst e. rewrite Z.compare_refl in Hgt.
        assert (Hanti : Pos.compare_cont Eq M m = CompOpp (Pos.compare_cont Eq m M))
          by (rewrite Pos.compare_cont_antisym; reflexivity).
        rewrite Hanti in Hgt.
        destruct (Pos.compare_cont Eq m M) eqn:Hc; try discriminate.
        apply Pos.compare_eq in Hc. subst m. reflexivity.
      - rewrite (proj2 (Z.compare_lt_iff (-52) e) He) in Hgt. discriminate Hgt. }
    rewrite Hp. left. destruct (get_sign 1); reflexivity. }
  destruct Hmax as [->|[-> Hgt]]; [split; reflexivity|].
  rewrite (min_100 p Hn). destruct (100 <? p) eqn:H100; [split; reflexivity|].
  split; [apply ltb_leb, Hgt|].
  apply ltb_false_leb; [reflexivity|exact Hn|exact H100].
Qed.


Lemma SFmul_not_nan_r (x c : spec_float) :
  SF.nonzero_finite c = true -> SF.not_nan x = true ->
  SF.not_nan (SF64mul x c) = true.
Proof.
  destruct c as [| | |sc mc ec]; try discriminate. intros _.
  destruct x as [s|s| |s m e]; try discriminate; intros _; try reflexivity.
  apply binary_round_aux_not_nan. lia.
Qed.

Lemma SFdiv_not_nan_l (c y : spec_float) :
  SF.nonzero_finite c = true -> SF.not_nan y = true ->
  SF.not_nan (SF64div c y) = true.
Proof.
  destruct c as [| | |sc mc ec]; try discriminate. intros _.
  destruct y as [s|s| |s m e]; try discriminate; intros _; try reflexivity.
  unfold SF64div, SFdiv. rewrite SFdiv_core_binary_spec.
  apply binary_round_aux_not_nan, Z.div_pos; [|lia].
  apply Z.mul_nonneg_nonneg; [lia|]. apply Z.pow_nonneg. lia.
Qed.

(** X12: a rendered row whose value is finite, under a total that is a
    number, gets a bar width between 1 and 100 percent. *)
Theorem rendered_bar_width_in_range (active : ActiveCategory)
    (grandTotal : float) (entry : string * float) (r : Row) :
  renderRow active grandTotal entry = Some r ->
  is_finite (snd entry) = true ->
  is_nan grandTotal = false ->
  (1 <=? r_displayPercent r) = true /\ (r_displayPercent r <=? 100) = true.
Proof.
  destruct entry as [category val]. cbn [snd]. intros Hr Hf Hg.
  assert (Hshown : (abs val <? 1) = false /\ r_displayPercent r = displayPercent val grandTotal).
  { unfold renderRow in Hr.
    destruct active, (isDirect category); try discriminate Hr;
      destruct (abs val <? 1); try discriminate Hr;
      injection Hr as <-; split; reflexivity. }
  destruct Hshown as [Habs ->]. unfold displayPercent. apply display_clamp.
  rewrite is_nan_Prim2SF, negb_false_iff, mul_spec, div_spec, abs_spec.
  rewrite is_nan_Prim2SF, negb_false_iff in Hg.
  rewrite is_finite_Prim2SF in Hf.
  rewrite ltb_spec, abs_spec in Habs.
  change (Prim2SF 1) with (S754_finite false 4503599627370496 (-52)) in Habs.
  apply SFmul_not_nan_r; [reflexivity|].
  destruct (Prim2SF val) as [s|s| |s m e]; try discriminate Hf.
  - discriminate Habs.
  - apply SFdiv_not_nan_l; [reflexivity|exact Hg].
Qed.

Lemma rendered_bar_width_in_range_witness :
  let st := stats DEFAULT_INPUTS (Some 1) in
  match renderRow All (grandTotal st) ("Compost", Compost (breakdown st)) with
  | Some r => (1 <=? r_displayPercent r) = true
  | None => False
  end.
Proof.
  intros st.
  destruct (renderRow All (grandTotal st) ("Compost", Compost (breakdown st)))
    as [r|] eqn:Hr.
  - apply (rendered_bar_width_in_range All (grandTotal st)
             ("Compost", Compost (breakdown st)) r Hr); reflexivity.
  - vm_compute in Hr. discriminate Hr.
Defined.

(** ** Signs *)

Lemma binary_round_aux_sign (m e : Z) (l : location) :
  (0 <= m)%Z ->
  SFltb (binary_round_aux prec emax false m e l) (S754_zero false) = false
  /\ SFltb (S754_zero false) (binary_round_aux prec emax true m e l) = false.
Proof.
  intros Hm.
  destruct (binary_round_aux_shape false m e l Hm) as (m3 & e3 & H3 & -> & _).
  destruct (binary_round_aux_shape true m e l Hm) as (m3' & e3' & H3' & -> & _).
  split.
  - destruct m3 as [|p|p]; [reflexivity| |lia]. destruct (_ <=? _)%Z; reflexivity.
  - destruct m3' as [|p|p]; [reflexivity| |lia]. destruct (_ <=? _)%Z; reflexivity.
Qed.

(** A non-negative number times a positive rate is not negative; times a
    negative rate it is not positive. *)
Lemma mul_rate_sign (x c : float) (sc : bool) (mc : positive) (ec : Z) :
  Prim2SF c = S754_finite sc mc ec ->
  (x <? 0) = false ->
  if sc then (0 <? x * c) = false else (x * c <? 0) = false.
Proof.
  intros Hc Hx. rewrite ltb_spec in Hx.
  change (Prim2SF 0) with (S754_zero false) in *.
  destruct sc; rewrite ltb_spec, mul_spec, Hc;
    change (Prim2SF 0) with (S754_zero false);
    destruct (Prim2SF x) as [s|s| |s m e]; try reflexivity;
    try (destruct s; [discriminate Hx|reflexivity]);
    try (destruct s; reflexivity);
    (destruct s; [discriminate Hx|]); cbn [SF64mul SFmul xorb];
    apply binary_round_aux_sign; lia.
Qed.

(** A non-negative number divided by a number that is at least one is not
    negative. *)
Lemma div_divisor_sign (p d : float) :
  (1 <=? d) = true -> (p <? 0) = false -> (p / d <? 0) = false.
Proof.
  intros Hd Hp. rewrite leb_spec in Hd. rewrite ltb_spec in Hp.
  rewrite ltb_spec, div_spec.
  change (Prim2SF 0) with (S754_zero false) in *.
  change (Prim2SF 1) with (S754_finite false 4503599627370496 (-52)) in Hd.
  destruct (Prim2SF d) as [sd|sd| |sd md ed]; try discriminate Hd;
    (destruct sd; [discriminate Hd|]);
    destruct (Prim2SF p) as [s|s| |s m e]; try reflexivity;
    try (destruct s; reflexivity);
    (destruct s; [discriminate Hp|]); try reflexivity.
  unfold SF64div, SFdiv. rewrite SFdiv_core_binary_spec. cbn [xorb].
  apply binary_round_aux_sign, Z.div_pos; [|lia].
  apply Z.mul_nonneg_nonneg; [lia|]. apply Z.pow_nonneg. lia.
Qed.

(** X10: when no input is negative, the only categories that can be
    rendered as credits ("Offset") are Recycling and Compost, and those
    two are never positive, whatever the household size. *)
Theorem only_recycling_and_compost_are_credits
    (i : WaterUsageMetrics) (hs : option float) (category : string) (v : float) :
  noNegativeInput i = true ->
  In (category, v) (entries (breakdown (stats i hs))) ->
  (isCredit v = true -> category = "Recycling" \/ category = "Compost")
  /\ (category = "Recycling" \/ category = "Compost" -> (0 <? v) = false).
Proof.
  unfold noNegativeInput. cbn [forallb]. rewrite !andb_true_iff, !negb_true_iff.
  intros (H1 & H2 & H3 & H4 & H5 & H6 & H7 & H8 & H9 & H10 & H11 & H12 & H13 & _).
  pose proof (householdDivisor_ge_1 hs) as Hd.
  assert (Hpos : forall x c mc ec, Prim2SF c = S754_finite false mc ec ->
                   (x <? 0) = false -> (x * c <? 0) = false)
    by (intros x c mc ec Hc Hx; exact (mul_rate_sign x c false mc ec Hc Hx)).
  assert (Hneg : forall x c mc ec, Prim2SF c = S754_finite true mc ec ->
                   (x <? 0) = false -> (0 <? x * c) = false)
    by (intros x c mc ec Hc Hx; exact (mul_rate_sign x c true mc ec Hc Hx)).
  unfold isCredit. cbn [entries breakdown stats Showers Baths Toilet Faucets
    Laundry Dishes Garden Clothing Diet Transport AI_Usage Recycling Compost In].
  intros [E|[E|[E|[E|[E|[E|[E|[E|[E|[E|[E|[E|[E|[]]]]]]]]]]]]]];
    injection E as <- <-;
    (split; [intros Hc|intros [F|F]; try discriminate F]).
  all: try (eapply Hneg; [reflexivity|assumption]).
  all: try (right; reflexivity).
  all: try (left; reflexivity).
  all: exfalso;
    match type of Hc with
    | (?v <? 0) = true =>
        assert (Hnn : (v <? 0) = false)
          by (repeat first [ assumption
                           | apply div_divisor_sign; [exact Hd|]
                           | eapply Hpos; [reflexivity|] ]);
        rewrite Hnn in Hc; discriminate Hc
    end.
Qed.

Lemma only_recycling_and_compost_are_credits_witness :
  (0 <? Compost (breakdown (stats DEFAULT_INPUTS (Some 3)))) = false.
Proof.
  apply (proj2 (only_recycling_and_compost_are_credits DEFAULT_INPUTS (Some 3)
                  "Compost" (Compost (breakdown (stats DEFAULT_INPUTS (Some 3))))
                  eq_refl
                  ltac:(cbn [entries In]; do 12 right; left; reflexivity))).
  right. reflexivity.
Defined.

End DisplayFacts.

(* ================================================================== *)
(** * Further properties: a household of one, and the assistant *)

Section UndividedFacts.
Import WATER_METRICS.
Local Open Scope Z_scope.

(** Rounding leaves a canonical mantissa with an exponent in range as it
    is. *)
Lemma binary_round_aux_valid (s : bool) (m : positive) (e : Z) :
  valid_binary (S754_finite s m e) = true ->
  binary_round_aux prec emax s (Zpos m) e loc_Exact = S754_finite s m e.
Proof.
  intros Hv. cbn [SpecFloat.valid_binary] in Hv. unfold bounded, canonical_mantissa in Hv.
  apply andb_true_iff in Hv. destruct Hv as [Hc He].
  apply Z.eqb_eq in Hc. apply Z.leb_le in He. change (emax - prec) with 971 in He.
  assert (Hshr : shr_fexp prec emax (Zpos m) e loc_Exact
                 = ({| shr_m := Zpos m; shr_r := false; shr_s := false |}, e)).
  { unfold shr_fexp. cbn [Zdigits2]. rewrite Hc, Z.sub_diag. reflexivity. }
  unfold binary_round_aux. rewrite Hshr. cbn [shr_m loc_of_shr_record round_nearest_even].
  rewrite Hshr. cbn [shr_m]. change (emax - prec) with 971.
  destruct (Z.leb_spec e 971); [reflexivity|lia].
Qed.

(** Dividing by one changes nothing. *)
Lemma SFdiv_one (x : spec_float) :
  valid_binary x = true ->
  SF64div x (S754_finite false 4503599627370496 (-52)) = x.
Proof.
  intros Hv. destruct x as [s|s| |s m e]; try (destruct s; reflexivity); [reflexivity|].
  pose proof (valid_binary_finite s m e Hv) as (Hd & He & Hn).
  unfold SF64div, SFdiv. rewrite SFdiv_core_binary_spec.
  replace (xorb s false) with s by (destruct s; reflexivity).
  change (Zdigits2 4503599627370496) with 53. cbn [Zdigits2]. rewrite fexp64.
  set (dx := Zpos (digits2_pos m)) in *.
  destruct (Z.eq_dec e (-1074)) as [Hmin|Hnorm].
  - (* at the least exponent *)
    subst e.
    replace (Z.min (Z.max (dx + -1074 - (53 + -52) - 53) (-1074)) (-1074 - -52))
      with (-1074) by lia.
    replace (-1074 - -52 - -1074) with 52 by lia.
    rewrite Z.div_mul, Z.mod_mul by (cbn; lia).
    change (new_location 4503599627370496 0) with loc_Exact.
    apply binary_round_aux_valid, Hv.
  - (* a normal number above it *)
    assert (Hdx : dx = 53) by (apply Hn; lia).
    replace (Z.min (Z.max (dx + e - (53 + -52) - 53) (-1074)) (e - -52))
      with (e - 1) by lia.
    replace (e - -52 - (e - 1)) with 53 by lia.
    assert (Hq : Zpos m * 2 ^ 53 / 4503599627370496 = Zpos (m~0)).
    { change (2 ^ 53) with (2 * 4503599627370496).
      rewrite Z.mul_assoc, Z.div_mul by lia. lia. }
    assert (Hr : (Zpos m * 2 ^ 53) mod 4503599627370496 = 0).
    { change (2 ^ 53) with (2 * 4503599627370496).
      rewrite Z.mul_assoc. apply Z.mod_mul. lia. }
    rewrite Hq, Hr. change (new_location 4503599627370496 0) with loc_Exact.
    assert (Hshr : shr_fexp prec emax (Zpos m~0) (e - 1) loc_Exact
                   = ({| shr_m := Zpos m; shr_r := false; shr_s := false |}, e)).
    { unfold shr_fexp. cbn [Zdigits2 digits2_pos]. rewrite Pos2Z.inj_succ. fold dx.
      rewrite Hdx, fexp64.
      replace (Z.max (Z.succ 53 + (e - 1) - 53) (-1074) - (e - 1)) with 1 by lia.
      cbn [shr shr_record_of_loc iter_pos shr_1]. f_equal. lia. }
    unfold binary_round_aux. rewrite Hshr.
    cbn [shr_m loc_of_shr_record round_nearest_even].
    assert (Hshr2 : shr_fexp prec emax (Zpos m) e loc_Exact
                    = ({| shr_m := Zpos m; shr_r := false; shr_s := false |}, e)).
    { unfold shr_fexp. cbn [Zdigits2]. fold dx. rewrite Hdx, fexp64.
      replace (Z.max (53 + e - 53) (-1074) - e) with 0 by lia. reflexivity. }
    rewrite Hshr2. cbn [shr_m]. change (emax - prec) with 971.
    destruct (Z.leb_spec e 971); [reflexivity|lia].
Qed.

Lemma div_by_one (p : float) : (p / 1)%float = p.
Proof.
  apply Prim2SF_inj. rewrite div_spec.
  change (Prim2SF 1) with (S754_finite false 4503599627370496 (-52)).
  apply SFdiv_one, Prim2SF_valid.
Qed.

(** X11: for a household size that is missing or not above 1 (one person,
    zero, a negative number, NaN), the shared categories are the
    undivided products: laundry loads x 30, dishwasher loads x 6 and
    garden minutes x 12, bit for bit. *)
Theorem household_of_one_is_undivided (i : WaterUsageMetrics) (hs : option float) :
  match hs with
  | Some v => (1 <? v)%float = false
  | None => True
  end ->
  let b := breakdown (stats i hs) in
  Laundry b = (laundryLoads i * LAUNDRY_GPL)%float
  /\ Dishes b = (dishwasherLoads i * DISHWASHER_GPC)%float
  /\ Garden b = (gardenMinutes i * GARDEN_GPM)%float.
Proof.
  intros Hhs.
  assert (Hd : householdDivisor hs = 1%float).
  { rewrite householdDivisor_eq. destruct hs as [v|]; [|reflexivity].
    unfold Math.or_default. destruct (Math.truthy v); [rewrite Hhs|]; reflexivity. }
  cbn [breakdown stats Laundry Dishes Garden]. rewrite Hd.
  repeat split; apply div_by_one.
Qed.

Lemma household_of_one_is_undivided_witness :
  Laundry (breakdown (stats DEFAULT_INPUTS (Some 0.5%float))) = 120%float.
Proof.
  rewrite (proj1 (household_of_one_is_undivided DEFAULT_INPUTS (Some 0.5%float)
                    eq_refl)).
  reflexivity.
Defined.

(** X14: the assistant has no usage figures without a user or without a
    stored weekly record; with one, each of its eight per-category
    figures is the rounded value of the dashboard's breakdown for the
    stored inputs and the user's household size, its direct total adds
    six of them (no dishwasher) and its virtual total two (diet and
    clothing only). *)
Theorem assistant_figures_follow_dashboard (u : User) :
  Assistant.getUserContext None = None
  /\ (dashboardData u = None -> Assistant.getUserContext (Some u) = None)
  /\ (forall d, dashboardData u = Some d ->
        exists f,
          Assistant.getUserContext (Some u) = Some f
          /\ let b := breakdown (stats (dd_inputs d) (householdSize u)) in
             Assistant.showerGal f = Math.round (Showers b)
             /\ Assistant.bathGal f = Math.round (Baths b)
             /\ Assistant.faucetGal f = Math.round (Faucets b)
             /\ Assistant.toiletGal f = Math.round (Toilet b)
             /\ Assistant.dietGal f = Math.round (Diet b)
             /\ Assistant.clothingGal f = Math.round (Clothing b)
             /\ Assistant.gardenGal f = Math.round (Garden b)
             /\ Assistant.laundryGal f = Math.round (Laundry b)
             /\ Assistant.totalDirect f =
                  (Assistant.showerGal f + Assistant.bathGal f
                   + Assistant.faucetGal f + Assistant.toiletGal f
                   + Assistant.laundryGal f + Assistant.gardenGal f)%float
             /\ Assistant.totalVirtual f =
                  (Assistant.dietGal f + Assistant.clothingGal f)%float
             /\ Assistant.totalFootprint f =
                  (Assistant.totalDirect f + Assistant.totalVirtual f)%float).
Proof.
  split; [reflexivity|]. split.
  - intros H. unfold Assistant.getUserContext. rewrite H. reflexivity.
  - intros d H. unfold Assistant.getUserContext. rewrite H.
    eexists. split; [reflexivity|]. cbv zeta. repeat split.
Qed.

Lemma assistant_figures_follow_dashboard_witness :
  Assistant.getUserContext (Some newUser) = None
  /\ (let c := utc10am jan10 in
      let u := user (fst (handleWeeklySubmit c WriteOk WriteOk
                            (initialState c newUser))) in
      exists f, Assistant.getUserContext (Some u) = Some f
                /\ Assistant.laundryGal f = 120%float).
Proof.
  split.
  - apply (proj1 (proj2 (assistant_figures_follow_dashboard newUser))). reflexivity.
  - intros c u.
    destruct (proj2 (proj2 (assistant_figures_follow_dashboard u)) _ eq_refl)
      as (f & Hf & H).
    exists f. split; [exact Hf|].
    destruct H as (_ & _ & _ & _ & _ & _ & _ & Hl & _).
    rewrite Hl. reflexivity.
Defined.

End UndividedFacts.
